(** * watertap-renrtl: configuration and flowsheet glue of the (refined) eNRTL
      property method, embedded in Rocq.

    The repository documents how an electrolyte-NRTL activity-coefficient
    method is configured (nested Python dictionaries) and how it is linked
    to an evaporator (Pyomo constraints and expressions).  This file embeds

    - the evaporator glue of [evaporator_example.ipynb] and of the
      how-to guides: the TDS-to-ion mass ratios, the linking constraints and
      the ideal / nonideal vapor-liquid equilibrium constraints;
    - the multi-electrolyte configuration of the how-to guide: the ion
      pairs, the [Liq_tau] table and the temperature correlations
      ([relative_permittivity_expr], [dens_mol_water_expr],
      [vol_mol_water_expr]);
    - the single-electrolyte parameter data (hydration numbers, molecular
      weights).

    Real-valued quantities of the Pyomo model are exact rationals ([Q]);
    floating-point rounding is not modelled.  Python's [/] raises
    [ZeroDivisionError] on a zero divisor and a missing dictionary key raises
    [KeyError], and [**] on floats raises [OverflowError] when the result is
    out of the range of a double: fallible code lives in the [result] monad
    below. *)

From Stdlib Require Import QArith Qabs Lqa Lia.
From stdpp Require Import gmap strings list fin_maps fin_sets.

Local Open Scope Q_scope.

(** ** Errors and the result monad *)

Inductive error : Set :=
  | ZeroDivisionError
  | KeyError
  | ConfigurationError
  | OverflowError.

Inductive result (A : Type) : Type :=
  | Ok (a : A)
  | Raise (e : error).

Arguments Ok {A} a.
Arguments Raise {A} e.

#[global] Instance result_ret : MRet result := fun A a => Ok a.

#[global] Instance result_bind : MBind result := fun A B f m =>
  match m with
  | Ok a => f a
  | Raise e => Raise e
  end.

Definition is_Ok {A} (r : result A) : Prop :=
  match r with Ok _ => True | Raise _ => False end.

(** Python's true division on numbers. *)
Definition pydiv (a b : Q) : result Q :=
  if Qeq_bool b 0 then Raise ZeroDivisionError else Ok (a / b).

(** The bound at which a binary64 result overflows: the midpoint between
    the largest double and 2^1024. *)
Definition float_overflow : Q := inject_Z (2 ^ 1024 - 2 ^ 970).

(** Python's [x ** n] on floats, for a positive integer [n]:
    [OverflowError] when the result is out of the range of a double. *)
Definition pypow (x : Q) (n : positive) : result Q :=
  let y := x ^ Zpos n in
  if Qle_bool float_overflow (Qabs y) then Raise OverflowError else Ok y.

(** [d[k]] on a dictionary. *)
Definition getitem {K} `{Countable K} {V} (d : gmap K V) (k : K) : result V :=
  match d !! k with
  | Some v => Ok v
  | None => Raise KeyError
  end.

(** A Python dictionary literal: the entries are stored from left to
    right, a repeated key keeps its last value. *)
Definition dict_literal {K} `{Countable K} {V} (entries : list (K * V))
  : gmap K V :=
  fold_left (fun d kv => <[kv.1 := kv.2]> d) entries ∅.

(** Python's [sum(...)] over a generator of fallible terms: the accumulator
    starts at 0 and the terms are added from left to right. *)
Definition pysum {A} (term : A -> result Q) (xs : list A) : result Q :=
  fold_left (fun acc x => s ← acc; t ← term x; Ok (s + t)) xs (Ok 0).

(** ** State blocks and unit models *)

(** A property state block: the indexed variables are functions of the
    index (phase, component). *)
Record StateBlock : Type := {
  temperature : Q;
  pressure : Q;
  pressure_sat : Q;
  flow_mass_phase_comp : string * string -> Q;
  mole_frac_phase_comp : string * string -> Q;
  act_coeff_phase_comp : string * string -> Q
}.

(** The evaporator unit exposes a brine and a vapor state block
    ([properties_brine[0]], [properties_vapor[0]]). *)
Record Evaporator : Type := {
  properties_brine : StateBlock;
  properties_vapor : StateBlock
}.

(** An equality constraint [lhs == rhs] as returned by a Pyomo rule. *)
Record EqualityExpression : Type := {
  lhs : Q;
  rhs : Q
}.

Definition holds (c : EqualityExpression) : Prop := lhs c == rhs c.

Definition satisfied (c : EqualityExpression) : bool := Qeq_bool (lhs c) (rhs c).

Definition residual (c : EqualityExpression) : Q := lhs c - rhs c.

(** ** The evaporator with eNRTL (how-to guide and notebook) *)

Module EvaporatorENRTL.

(** [m.fs.set_ions = Set(initialize=["Na+", "Cl-"])] *)
Definition set_ions : list string := ["Na+"; "Cl-"]%string.

(** [m.fs.ion_coeff = {"Na+": 1, "Cl-": 1}] *)
Definition ion_coeff : gmap string Q :=
  dict_literal [("Na+"%string, 1); ("Cl-"%string, 1)].

(** The molecular weights of the eNRTL configuration dictionary. *)
Definition mw_comp_configuration : gmap string Q :=
  dict_literal [("H2O"%string, 18.01528e-3);
                ("Na+"%string, 22.990e-3);
                ("Cl-"%string, 35.453e-3)].

(** ["Liq_tau"] of the eNRTL configuration dictionary. *)
Definition Liq_tau : gmap (string * string) Q :=
  dict_literal [(("H2O", "Na+, Cl-")%string, 8.885);
                (("Na+, Cl-", "H2O")%string, -4.549)].

(** [mol_mass_ion_molecule = sum(ion_coeff[j] * sb_enrtl.mw_comp[j]
                                 for j in set_ions)] *)
Definition mol_mass_ion_molecule (mw_comp : gmap string Q) : result Q :=
  pysum (fun j => c ← getitem ion_coeff j; w ← getitem mw_comp j; Ok (c * w))
        set_ions.

(** [mass_ratio_ion = {"Na+": mw_comp["Na+"] / mol_mass_ion_molecule,
                       "Cl-": mw_comp["Cl-"] / mol_mass_ion_molecule}] *)
Definition mass_ratio_ion (mw_comp : gmap string Q) : result (gmap string Q) :=
  total ← mol_mass_ion_molecule mw_comp;
  w_na ← getitem mw_comp "Na+"%string;
  r_na ← pydiv w_na total;
  w_cl ← getitem mw_comp "Cl-"%string;
  r_cl ← pydiv w_cl total;
  Ok (dict_literal [("Na+"%string, r_na); ("Cl-"%string, r_cl)]).

(** The block [m.fs.enrtl_state]: the eNRTL state block and the mass
    ratios stored on it. *)
Record EnrtlState : Type := {
  properties : StateBlock;
  mass_ratio : gmap string Q
}.

(** The nonideal flowsheet block: evaporator plus eNRTL state. *)
Record NonidealBlock : Type := {
  evaporator : Evaporator;
  enrtl_state : EnrtlState
}.

Definition eq_enrtl_temperature (b : NonidealBlock) : EqualityExpression :=
  {| lhs := temperature (properties (enrtl_state b));
     rhs := temperature (properties_brine (evaporator b)) |}.

Definition eq_enrtl_pressure (b : NonidealBlock) : EqualityExpression :=
  {| lhs := pressure (properties (enrtl_state b));
     rhs := pressure (properties_brine (evaporator b)) |}.

Definition eq_enrtl_flow_mass_H2O (b : NonidealBlock) : EqualityExpression :=
  {| lhs := flow_mass_phase_comp (properties (enrtl_state b))
              ("Liq", "H2O")%string;
     rhs := flow_mass_phase_comp (properties_brine (evaporator b))
              ("Liq", "H2O")%string |}.

(** [flow_mass_in == brine.flow_mass_phase_comp["Liq", "TDS"]
                     * b.mass_ratio_ion[j]] *)
Definition eq_enrtl_flow_mass_ion_comp (b : NonidealBlock) (j : string)
  : result EqualityExpression :=
  r ← getitem (mass_ratio (enrtl_state b)) j;
  Ok {| lhs := flow_mass_phase_comp (properties (enrtl_state b))
                 ("Liq"%string, j);
        rhs := flow_mass_phase_comp (properties_brine (evaporator b))
                 ("Liq", "TDS")%string * r |}.

(** [m.fs.ideal.act_coeff = Param(initialize=1)] *)
Definition act_coeff : Q := 1.

(** Part I: [_eq_ideal_phase_equilibrium] on the ideal block, which holds
    the evaporator only. *)
Definition _eq_ideal_phase_equilibrium (ev : Evaporator) : EqualityExpression :=
  {| lhs := pressure (properties_brine ev);
     rhs := act_coeff
            * mole_frac_phase_comp (properties_brine ev) ("Liq", "H2O")%string
            * pressure_sat (properties_vapor ev) |}.

(** Part II: [_eq_nonideal_phase_equilibrium], with the activity
    coefficient of water taken from the eNRTL state block. *)
Definition _eq_nonideal_phase_equilibrium (b : NonidealBlock)
  : EqualityExpression :=
  {| lhs := pressure (properties_brine (evaporator b));
     rhs := act_coeff_phase_comp (properties (enrtl_state b))
              ("Liq", "H2O")%string
            * mole_frac_phase_comp (properties_brine (evaporator b))
                ("Liq", "H2O")%string
            * pressure_sat (properties_vapor (evaporator b)) |}.

(** [molal_conc_solute]: [(brine.flow_mass_phase_comp["Liq", "TDS"]
      / properties_feed.mw_comp["TDS"])
     / brine.flow_mass_phase_comp["Liq", "H2O"]]; the molecular weight of
    TDS belongs to the seawater property package. *)
Definition molal_conc_solute (mw_TDS : Q) (ev : Evaporator) : result Q :=
  mol ← pydiv (flow_mass_phase_comp (properties_brine ev)
                 ("Liq", "TDS")%string) mw_TDS;
  pydiv mol (flow_mass_phase_comp (properties_brine ev) ("Liq", "H2O")%string).

End EvaporatorENRTL.

(** ** The multi-electrolyte r-eNRTL configuration (how-to guide) *)

Module MultiElectrolyte.

(** The keys of [Liq_tau] are pairs of labels.  A label is the solvent name
    or an ion-pair label ["cation, anion"]; the ion-pair label is kept as
    the pair of its two ion names, [label] gives the string. *)
Inductive species : Set :=
  | Solvent (name : string)
  | IonPair (c a : string).

Definition label (s : species) : string :=
  match s with
  | Solvent name => name
  | IonPair c a => c +:+ ", " +:+ a
  end.

#[global] Instance species_eq_dec : EqDecision species.
Proof. solve_decision. Defined.

#[global] Instance species_countable : Countable species.
Proof.
  refine (inj_countable'
            (fun s => match s with
                      | Solvent name => inl name
                      | IonPair c a => inr (c, a)
                      end)
            (fun x => match x with
                      | inl name => Solvent name
                      | inr (c, a) => IonPair c a
                      end) _).
  intros []; reflexivity.
Defined.

(** *** The NaCl-Na2SO4 example *)

Definition solvent : string := "H2O".
Definition elect_1 : string := "NaCl".
Definition elect_2 : string := "Na2SO4".
Definition cation_1 : string := "Na+".
Definition anion_1 : string := "Cl-".
Definition anion_2 : string := "SO4-".

Definition electrolyte : list string := [elect_1; elect_2].
Definition cation : list string := [cation_1].
Definition anion : list string := [anion_1; anion_2].

(** [ion_pair[elect_1] = "Na+, Cl-"], [ion_pair[elect_2] = "Na+, SO4-"] *)
Definition ion_pair : gmap string species :=
  dict_literal [(elect_1, IonPair cation_1 anion_1);
                (elect_2, IonPair cation_1 anion_2)].

(** The ["Liq_tau"] entry of the configuration dictionary. *)
Definition Liq_tau : gmap (species * species) Q :=
  dict_literal
    [((Solvent solvent, IonPair cation_1 anion_1), 7.951);
     ((IonPair cation_1 anion_1, Solvent solvent), -3.984);
     ((Solvent solvent, IonPair cation_1 anion_2), 7.578);
     ((IonPair cation_1 anion_2, Solvent solvent), -3.532);
     ((IonPair cation_1 anion_1, IonPair cation_1 anion_2), 0);
     ((IonPair cation_1 anion_2, IonPair cation_1 anion_1), 0)].

(** *** The key classes of the guide, for any lists of cations and anions *)

(** All cation-anion combinations. *)
Definition ion_pairs (cations anions : list string) : list species :=
  (fun ca => IonPair ca.1 ca.2) <$> list_prod cations anions.

(** Type (a): tau(solvent, ion_pair) and tau(ion_pair, solvent). *)
Definition tau_solvent_ion_pair_keys (s : string) (cations anions : list string)
  : list (species * species) :=
  (fun p => (Solvent s, p)) <$> ion_pairs cations anions.

Definition tau_ion_pair_solvent_keys (s : string) (cations anions : list string)
  : list (species * species) :=
  (fun p => (p, Solvent s)) <$> ion_pairs cations anions.

(** "elect_i and elect_j must share one, and only one, common ion". *)
Definition share_one_common_ion (p q : species) : bool :=
  match p, q with
  | IonPair c a, IonPair c' a' =>
      xorb (bool_decide (c = c')) (bool_decide (a = a'))
  | _, _ => false
  end.

(** Type (b): tau(ion_pair[elect_i], ion_pair[elect_j]). *)
Definition tau_ion_pair_ion_pair_keys (cations anions : list string)
  : list (species * species) :=
  filter (fun k => Is_true (share_one_common_ion k.1 k.2))
         (list_prod (ion_pairs cations anions) (ion_pairs cations anions)).

(** The numbers of tau parameters stated in the guide, for [x] species of
    cations and [y] species of anions. *)
Definition N_tau_solvent_ion_pair (x y : nat) : nat := (x * y)%nat.
Definition N_tau_ion_pair_solvent (x y : nat) : nat := (x * y)%nat.
(** [x * y * (x - 1)] *)
Definition N_tau_ion_pair_ion_pair (x y : nat) : nat := (x * y * (x - 1))%nat.
(** "or" [y * x * (y - 1)] *)
Definition N_tau_ion_pair_ion_pair' (x y : nat) : nat := (y * x * (y - 1))%nat.

(** The shape of a key. *)
Definition is_solvent_ion_pair (k : species * species) : bool :=
  match k with (Solvent _, IonPair _ _) => true | _ => false end.

Definition is_ion_pair_solvent (k : species * species) : bool :=
  match k with (IonPair _ _, Solvent _) => true | _ => false end.

Definition is_ion_pair_ion_pair (k : species * species) : bool :=
  match k with (IonPair _ _, IonPair _ _) => true | _ => false end.

(** The number of entries of a tau table whose key has a given shape. *)
Definition count_tau (shape : species * species -> bool)
    (tau : gmap (species * species) Q) : nat :=
  size (filter (fun kv => Is_true (shape kv.1)) tau).

(** Modelled from the spec: the validation of [Liq_tau] by the Parameter
    Registry of [refined_enrtl_multi.py], which is not part of the sources
    at hand.  A solvent/ion-pair parameter that is missing (either
    direction) and a parameter given for a pair that is not a valid type (a)
    or type (b) pair are configuration errors; the ion-pair/ion-pair
    parameters are optional and default to zero. *)
Definition check_Liq_tau (s : string) (cations anions : list string)
    (tau : gmap (species * species) Q) : result unit :=
  let required := tau_solvent_ion_pair_keys s cations anions
                  ++ tau_ion_pair_solvent_keys s cations anions in
  let valid := required ++ tau_ion_pair_ion_pair_keys cations anions in
  if bool_decide (Forall (fun k => is_Some (tau !! k)) required) then
    if bool_decide (dom tau ⊆ list_to_set valid) then Ok tt
    else Raise ConfigurationError
  else Raise ConfigurationError.

(** The tau parameter used by the model: the configured value, zero when
    the pair is not in the table. *)
Definition tau_value (tau : gmap (species * species) Q)
    (k : species * species) : Q :=
  default 0 (tau !! k).

(** *** Temperature correlations of the solvent.
    A [pyunits] factor carries the unit only, its value is 1. *)

(** [AM + BM * (1 / T * pyunits.K - 1 / CM)] *)
Definition relative_permittivity_expr (T : Q) : result Q :=
  let AM := 78.54003 in
  let BM := 31989.38 in
  let CM := 298.15 in
  inv_T ← pydiv 1 T;
  inv_CM ← pydiv 1 CM;
  Ok (AM + BM * (inv_T * 1 - inv_CM)).

(** [pyo.units.convert(_, to_units=kg/m**3)] of a value in g/cm**3. *)
Definition convert_g_cm3_to_kg_m3 (v : Q) : Q := v * 1000.

(** [(water_dens_kgm3 - convert(correction_param_a) *
      (T - correction_param_b) ** 2) / water_mw]; the [Param]s that the
    function declares on the block are the constants bound below. *)
Definition dens_mol_water_expr (T : Q) : result Q :=
  let water_dens := 1 in
  let water_mw := 18.01528e-3 in
  let correction_param_a := 4.8e-6 in
  let correction_param_b := 273.15 in
  let water_dens_kgm3 := convert_g_cm3_to_kg_m3 water_dens in
  square ← pypow (T - correction_param_b) 2;
  pydiv (water_dens_kgm3
         - convert_g_cm3_to_kg_m3 correction_param_a * square)
        water_mw.

(** [1 / dens_mol_water_expr(b, s, T)] *)
Definition vol_mol_water_expr (T : Q) : result Q :=
  d ← dens_mol_water_expr T;
  pydiv 1 d.

End MultiElectrolyte.

(** ** The single-electrolyte r-eNRTL configuration *)

Module SingleElectrolyte.

(** The ["parameter_data"] of an ion in the configuration dictionary. *)
Record ion_parameter_data : Type := {
  mw : Q;
  ionic_radius : Q;
  partial_vol_mol : Q;
  hydration_number : Q;
  min_hydration_number : Q;
  number_sites : Q
}.

Definition Na_parameter_data : ion_parameter_data :=
  {| mw := 22.990e-3; ionic_radius := 1.02; partial_vol_mol := -6.7;
     hydration_number := 1.51; min_hydration_number := 0; number_sites := 4 |}.

Definition Cl_parameter_data : ion_parameter_data :=
  {| mw := 35.453e-3; ionic_radius := 1.81; partial_vol_mol := 24.2;
     hydration_number := 0.5; min_hydration_number := 0; number_sites := 4 |}.

(** The fallback entry stands for an ion the dictionary does not declare. *)
Definition undeclared_parameter_data : ion_parameter_data :=
  {| mw := 0; ionic_radius := 0; partial_vol_mol := 0;
     hydration_number := 0; min_hydration_number := 0; number_sites := 0 |}.

Definition components_parameter_data (j : string) : ion_parameter_data :=
  if String.eqb j "Na+" then Na_parameter_data
  else if String.eqb j "Cl-" then Cl_parameter_data
  else undeclared_parameter_data.

(** ["H2O"]: ["mw": (18.01528e-3, kg/mol)] *)
Definition mw_H2O : Q := 18.01528e-3.

(** ["NaCl"]: ["dissociation_species": {"Na+": 1, "Cl-": 1}] *)
Definition dissociation_species : list (string * Q) :=
  [("Na+"%string, 1); ("Cl-"%string, 1)].

(** ["Liq_tau"] of the r-eNRTL configuration dictionary. *)
Definition Liq_tau : gmap (string * string) Q :=
  dict_literal [(("H2O", "Na+, Cl-")%string, 7.951);
                (("Na+, Cl-", "H2O")%string, -3.984)].

(** "the maximum molality is 6 mol NaCl/kg H2O" (evaporator notebook). *)
Definition maximum_molality : Q := 6.

Definition Qsum {A} (f : A -> Q) (xs : list A) : Q :=
  fold_right (fun x acc => f x + acc) 0 xs.

End SingleElectrolyte.

(** ** Inequality constraints and ordered dictionaries *)

(** An inequality constraint [lower <= upper] as returned by a Pyomo rule
    ([a >= b] is [b <= a]). *)
Record InequalityExpression : Type := {
  lower : Q;
  upper : Q
}.

Definition holds_le (c : InequalityExpression) : Prop := lower c <= upper c.

(** [RangeSet(n)]: the integers 1, ..., n. *)
Definition RangeSet (n : nat) : list nat := seq 1 n.

(** A Python dictionary whose iteration order matters: the entries in
    insertion order. *)
Definition odict (V : Type) : Type := list (string * V).

Fixpoint odict_getitem {V} (d : odict V) (k : string) : result V :=
  match d with
  | [] => Raise KeyError
  | (k', v) :: d' => if String.eqb k' k then Ok v else odict_getitem d' k
  end.

(** [d[k] = v]: an existing key keeps its position, a new key goes last. *)
Fixpoint odict_setitem {V} (k : string) (v : V) (d : odict V) : odict V :=
  match d with
  | [] => [(k, v)]
  | (k', v') :: d' =>
      if String.eqb k' k then (k, v) :: d' else (k', v') :: odict_setitem k v d'
  end.

Definition odict_keys {V} (d : odict V) : list string := fst <$> d.

Definition odict_values {V} (d : odict V) : list V := snd <$> d.

(** ** Initial values of the eNRTL state block (how-to guides and notebook) *)

Module StateVars.

(** The variables of the state block that [populate_enrtl_state_vars]
    writes.  [flow_mol_phase_comp] is indexed: its keys are the indices of
    the variable. *)
Record t : Type := {
  temperature : Q;
  pressure : Q;
  flow_mol_phase_comp : gmap (string * string) Q
}.

(** A statement acting on the block: the block afterwards and the outcome;
    an exception leaves the block as it is at that point. *)
Definition action : Type := t -> t * result unit.

Definition and_then (a b : action) : action :=
  fun blk =>
    match a blk with
    | (blk', Ok _) => b blk'
    | (blk', Raise e) => (blk', Raise e)
    end.

Definition skip : action := fun blk => (blk, Ok tt).

Definition raise (e : error) : action := fun blk => (blk, Raise e).

(** [for x in xs: body(x)] *)
Fixpoint for_each {A} (xs : list A) (body : A -> action) : action :=
  match xs with
  | [] => skip
  | x :: xs' => and_then (body x) (for_each xs' body)
  end.

(** [blk.temperature = v] *)
Definition set_temperature (v : Q) : action :=
  fun blk =>
    ({| temperature := v; pressure := pressure blk;
        flow_mol_phase_comp := flow_mol_phase_comp blk |}, Ok tt).

(** [blk.pressure = v] *)
Definition set_pressure (v : Q) : action :=
  fun blk =>
    ({| temperature := temperature blk; pressure := v;
        flow_mol_phase_comp := flow_mol_phase_comp blk |}, Ok tt).

(** [blk.flow_mol_phase_comp[idx] = v]: [KeyError] when [idx] is not an
    index of the variable. *)
Definition set_flow_mol_phase_comp (idx : string * string) (v : Q) : action :=
  fun blk =>
    match flow_mol_phase_comp blk !! idx with
    | Some _ =>
        ({| temperature := temperature blk; pressure := pressure blk;
            flow_mol_phase_comp := <[idx := v]> (flow_mol_phase_comp blk) |},
         Ok tt)
    | None => (blk, Raise KeyError)
    end.

(** [blk.flow_mol_phase_comp[idx] /= d]: read, divide, write back. *)
Definition idiv_flow_mol_phase_comp (idx : string * string) (d : Q) : action :=
  fun blk =>
    match flow_mol_phase_comp blk !! idx with
    | Some v =>
        match pydiv v d with
        | Ok q => set_flow_mol_phase_comp idx q blk
        | Raise e => (blk, Raise e)
        end
    | None => (blk, Raise KeyError)
    end.

Definition feed_flow_mass : Q := 10.

(** [{"Na+": 0.013768116, "Cl-": 0.021231884}], then
    [feed_mass_frac_comp["H2O"] = 1 - sum(x for x in
     feed_mass_frac_comp.values())] *)
Definition feed_mass_frac_comp : odict Q :=
  let d := [("Na+"%string, 0.013768116); ("Cl-"%string, 0.021231884)] in
  odict_setitem "H2O" (1 - fold_left Qplus (odict_values d) 0) d.

(** [{"H2O": 18.015e-3, "Na+": 22.990e-3, "Cl-": 35.453e-3}] *)
Definition mw_comp : odict Q :=
  [("H2O"%string, 18.015e-3); ("Na+"%string, 22.990e-3);
   ("Cl-"%string, 35.453e-3)].

(** The body of the loop over [feed_mass_frac_comp]. *)
Definition populate_component (j : string) : action :=
  match odict_getitem feed_mass_frac_comp j with
  | Raise e => raise e
  | Ok x =>
      match odict_getitem mw_comp j with
      | Raise e => raise e
      | Ok w =>
          match pydiv (feed_flow_mass * x) w with
          | Raise e => raise e
          | Ok v =>
              and_then (set_flow_mol_phase_comp ("Liq"%string, j) v)
                (if String.eqb j "H2O"
                 then idiv_flow_mol_phase_comp ("Liq"%string, j) 2
                 else skip)
          end
      end
  end.

(** [populate_enrtl_state_vars(blk, base)] *)
Definition populate_enrtl_state_vars (base : string) : action :=
  and_then (set_temperature 298.15)
    (and_then (set_pressure 101325)
       (if String.eqb base "FpcTP"
        then for_each (odict_keys feed_mass_frac_comp) populate_component
        else skip)).

(** The indices of [flow_mol_phase_comp] that the loop writes and the
    values it computes for them before the water flow is halved. *)
Definition idx_Na : string * string := ("Liq", "Na+")%string.
Definition idx_Cl : string * string := ("Liq", "Cl-")%string.
Definition idx_H2O : string * string := ("Liq", "H2O")%string.

Definition flow_mol_Na : Q := feed_flow_mass * 0.013768116 / 22.990e-3.
Definition flow_mol_Cl : Q := feed_flow_mass * 0.021231884 / 35.453e-3.
Definition flow_mol_H2O : Q :=
  feed_flow_mass * (1 - (0 + 0.013768116 + 0.021231884)) / 18.015e-3.

(** The block at the reference temperature and pressure with the flows
    [f]. *)
Definition with_flow (blk : t) (f : gmap (string * string) Q) : t :=
  {| temperature := 298.15; pressure := 101325; flow_mol_phase_comp := f |}.

End StateVars.

(** ** Design constraints of the three-effect flowsheet (MVC guide) *)

Module Flowsheet.

(** [m.fs.set2_evaporators = RangeSet(m.fs.num_evaporators - 1)] *)
Definition set2_evaporators (num_evaporators : nat) : list nat :=
  RangeSet (num_evaporators - 1).

(** [eq_upper_bound_evaporators_pressure(b, e)]:
    [evaporator[e + 1].outlet_brine.pressure[0]
     <= evaporator[e].outlet_brine.pressure[0]] *)
Definition eq_upper_bound_evaporators_pressure
    (outlet_brine_pressure : nat -> Q) (e : nat) : InequalityExpression :=
  {| lower := outlet_brine_pressure (e + 1)%nat;
     upper := outlet_brine_pressure e |}.

(** The body of [rule_water_recovery] is an expression over the variables
    of the flowsheet: the rule returns it without evaluating it, and each
    side has a value only at a point of the variables, where a division by
    zero is an error. *)
Record SymbolicEquality : Type := {
  value_lhs : result Q;
  value_rhs : result Q
}.

Definition holds_at (c : SymbolicEquality) : Prop :=
  exists l r : Q, value_lhs c = Ok l /\ value_rhs c = Ok r /\ l == r.

(** [rule_water_recovery]:
    [water_recovery == 1 - (feed - sum(product[e] for e in set_evaporators))
                           / feed], with the water mass flows of the feed
    of evaporator 1 and of the condenser outlets; the arguments are the
    values of the variables at the point of evaluation. *)
Definition rule_water_recovery (water_recovery feed : Q)
    (product : nat -> Q) (num_evaporators : nat)
  : SymbolicEquality :=
  {| value_lhs := Ok water_recovery;
     value_rhs :=
       produced ← pysum (fun e => Ok (product e)) (RangeSet num_evaporators);
       q ← pydiv (feed - produced) feed;
       Ok (1 - q) |}.

(** [m.fs.water_recovery = Var(initialize=0.2, bounds=(0, 1))] *)
Definition water_recovery_bounds (water_recovery : Q) : Prop :=
  0 <= water_recovery /\ water_recovery <= 1.

End Flowsheet.

(** ** Property equations of the LiBr property package (documentation) *)

Module LiBr.

(** Components 'H2O' and 'TDS', phase 'Liq'. *)
Definition components : list string := ["H2O"; "TDS"]%string.

(** Component mass fraction: X_j = M_j / sum_j M_j *)
Definition mass_frac_phase_comp (M : string -> Q) (j : string) : result Q :=
  pydiv (M j) (SingleElectrolyte.Qsum M components).

(** Phase volumetric flowrate: Q = sum_j M_j / rho *)
Definition flow_vol_phase (M : string -> Q) (rho : Q) : result Q :=
  pydiv (SingleElectrolyte.Qsum M components) rho.

(** Mass concentration: C_j = X_j * rho *)
Definition conc_mass_phase_comp (M : string -> Q) (rho : Q) (j : string)
  : result Q :=
  X ← mass_frac_phase_comp M j;
  Ok (X * rho).

(** Component mole flowrate: N_j = M_j / MW_j *)
Definition flow_mol_phase_comp (M MW : string -> Q) (j : string) : result Q :=
  pydiv (M j) (MW j).

(** Molality: Cm_TDS = x_TDS / ((1 - x_TDS) * MW_TDS) *)
Definition molality_phase_comp (M MW : string -> Q) : result Q :=
  x ← mass_frac_phase_comp M "TDS";
  pydiv x ((1 - x) * MW "TDS"%string).

End LiBr.

(** ** Concrete inputs *)

(** A brine at 30 kPa with water mole fraction 0.9 under a saturation
    pressure of 33333 Pa, the eNRTL block reporting an activity coefficient
    of 1. *)
Definition unit_activity_block : EvaporatorENRTL.NonidealBlock :=
  let brine :=
    {| temperature := 333.15; pressure := 30000; pressure_sat := 0;
       flow_mass_phase_comp := fun _ => 1;
       mole_frac_phase_comp := fun _ => 0.9;
       act_coeff_phase_comp := fun _ => 0 |} in
  let vapor :=
    {| temperature := 333.15; pressure := 30000; pressure_sat := 33333;
       flow_mass_phase_comp := fun _ => 1;
       mole_frac_phase_comp := fun _ => 1;
       act_coeff_phase_comp := fun _ => 0 |} in
  let enrtl :=
    {| temperature := 333.15; pressure := 30000; pressure_sat := 0;
       flow_mass_phase_comp := fun _ => 1;
       mole_frac_phase_comp := fun _ => 0.9;
       act_coeff_phase_comp := fun _ => 1 |} in
  {| EvaporatorENRTL.evaporator :=
       {| properties_brine := brine; properties_vapor := vapor |};
     EvaporatorENRTL.enrtl_state :=
       {| EvaporatorENRTL.properties := enrtl;
          EvaporatorENRTL.mass_ratio := ∅ |} |}.

(** A brine with TDS mass flow [tds] and water mass flow [h2o], linked to an
    eNRTL state block that holds the mass ratios of the evaporator example
    and the ion mass flows they give. *)
Definition linked_block (tds h2o : Q) : EvaporatorENRTL.NonidealBlock :=
  let r_na := 22.990e-3 / (0 + 1 * 22.990e-3 + 1 * 35.453e-3) in
  let r_cl := 35.453e-3 / (0 + 1 * 22.990e-3 + 1 * 35.453e-3) in
  let brine :=
    {| temperature := 333.15; pressure := 30000; pressure_sat := 0;
       flow_mass_phase_comp := fun idx =>
         if String.eqb idx.2 "TDS" then tds else h2o;
       mole_frac_phase_comp := fun _ => 0.9;
       act_coeff_phase_comp := fun _ => 0 |} in
  let enrtl :=
    {| temperature := 333.15; pressure := 30000; pressure_sat := 0;
       flow_mass_phase_comp := fun idx =>
         if String.eqb idx.2 "Na+" then tds * r_na
         else if String.eqb idx.2 "Cl-" then tds * r_cl
         else h2o;
       mole_frac_phase_comp := fun _ => 0.9;
       act_coeff_phase_comp := fun _ => 0.98 |} in
  {| EvaporatorENRTL.evaporator :=
       {| properties_brine := brine; properties_vapor := brine |};
     EvaporatorENRTL.enrtl_state :=
       {| EvaporatorENRTL.properties := enrtl;
          EvaporatorENRTL.mass_ratio :=
            dict_literal [("Na+"%string, r_na); ("Cl-"%string, r_cl)] |} |}.

(** The evaporator with every brine mass flow multiplied by [k]. *)
Definition scale_flows (k : Q) (ev : Evaporator) : Evaporator :=
  {| properties_brine :=
       {| temperature := temperature (properties_brine ev);
          pressure := pressure (properties_brine ev);
          pressure_sat := pressure_sat (properties_brine ev);
          flow_mass_phase_comp := fun idx =>
            k * flow_mass_phase_comp (properties_brine ev) idx;
          mole_frac_phase_comp := mole_frac_phase_comp (properties_brine ev);
          act_coeff_phase_comp := act_coeff_phase_comp (properties_brine ev) |};
     properties_vapor := properties_vapor ev |}.

(** An evaporator whose brine has the component mass flows [M]. *)
Definition brine_of_flows (M : string -> Q) : Evaporator :=
  let sb :=
    {| temperature := 333.15; pressure := 30000; pressure_sat := 0;
       flow_mass_phase_comp := fun idx => M idx.2;
       mole_frac_phase_comp := fun _ => 0;
       act_coeff_phase_comp := fun _ => 0 |} in
  {| properties_brine := sb; properties_vapor := sb |}.

(** A state block with the three liquid indices and one more index. *)
Definition example_state_vars : StateVars.t :=
  {| StateVars.temperature := 300; StateVars.pressure := 30000;
     StateVars.flow_mol_phase_comp :=
       dict_literal [(("Liq", "Na+")%string, 1); (("Liq", "Cl-")%string, 1);
                     (("Liq", "H2O")%string, 100);
                     (("Vap", "H2O")%string, 7)] |}.

(** A LiBr solution: 0.45 kg/s of water and 0.55 kg/s of LiBr. *)
Definition LiBr_flows (j : string) : Q :=
  if String.eqb j "TDS" then 0.55 else 0.45.

(** * Properties *)

(** ** The result monad and Python arithmetic *)

Lemma pydiv_Ok (a b : Q) : ~ b == 0 -> pydiv a b = Ok (a / b).
Proof.
  intros Hb. unfold pydiv.
  destruct (Qeq_bool b 0) eqn:E; [|reflexivity].
  apply Qeq_bool_eq in E. contradiction.
Qed.

Lemma pydiv_Raise (a b : Q) : b == 0 -> pydiv a b = Raise ZeroDivisionError.
Proof.
  intros Hb. unfold pydiv. apply Qeq_bool_iff in Hb. rewrite Hb. reflexivity.
Qed.

Lemma pydiv_Raise_inv (a b : Q) (e : error) :
  pydiv a b = Raise e -> e = ZeroDivisionError /\ b == 0.
Proof.
  unfold pydiv. destruct (Qeq_bool b 0) eqn:E; [|discriminate].
  intros [= <-]. split; [reflexivity|]. apply Qeq_bool_eq, E.
Qed.

Lemma getitem_Some {K} `{Countable K} {V} (d : gmap K V) (k : K) (v : V) :
  d !! k = Some v -> getitem d k = Ok v.
Proof. intros Hk. unfold getitem. rewrite Hk. reflexivity. Qed.

(** ** TDS to ions: the mass ratios *)

Section MassRatio.
Import EvaporatorENRTL.

Variable mw_comp : gmap string Q.
Variables w_na w_cl : Q.
Hypothesis mw_na : mw_comp !! "Na+"%string = Some w_na.
Hypothesis mw_cl : mw_comp !! "Cl-"%string = Some w_cl.

Lemma mol_mass_ion_molecule_NaCl :
  mol_mass_ion_molecule mw_comp = Ok (0 + 1 * w_na + 1 * w_cl).
Proof.
  unfold mol_mass_ion_molecule, pysum, set_ions. cbn [fold_left].
  rewrite (getitem_Some ion_coeff "Na+"%string 1 eq_refl).
  rewrite (getitem_Some ion_coeff "Cl-"%string 1 eq_refl).
  rewrite (getitem_Some _ _ _ mw_na), (getitem_Some _ _ _ mw_cl).
  reflexivity.
Qed.

Lemma mass_ratio_ion_NaCl :
  0 < w_na -> 0 < w_cl ->
  mass_ratio_ion mw_comp =
    Ok (dict_literal
          [("Na+"%string, w_na / (0 + 1 * w_na + 1 * w_cl));
           ("Cl-"%string, w_cl / (0 + 1 * w_na + 1 * w_cl))]).
Proof.
  intros Hna Hcl. unfold mass_ratio_ion.
  rewrite mol_mass_ion_molecule_NaCl.
  rewrite (getitem_Some _ _ _ mw_na), (getitem_Some _ _ _ mw_cl).
  cbn [mbind result_bind].
  rewrite !pydiv_Ok by lra.
  reflexivity.
Qed.

End MassRatio.

(** C9.  The TDS-to-ion conversion conserves mass: for positive molecular
    weights of Na+ and Cl-, [mass_ratio_ion] is built without error, each
    ratio is the ion's stoichiometry-weighted molecular weight over the molar
    mass of the ion molecule, and the two ratios sum to 1.  On every block
    whose eNRTL state stores these ratios the rule
    [eq_enrtl_flow_mass_ion_comp] builds a constraint for Na+ and one for
    Cl-, each equating the ion mass flow of the eNRTL state to the TDS mass
    flow of the brine times the ion's ratio, and whenever the two constraints
    hold the ion mass flows add up to the TDS mass flow of the brine. *)
Theorem mass_ratio_ion_conserves_mass
    (mw_comp : gmap string Q) (w_na w_cl : Q) :
  mw_comp !! "Na+"%string = Some w_na ->
  mw_comp !! "Cl-"%string = Some w_cl ->
  0 < w_na -> 0 < w_cl ->
  exists (ratio : gmap string Q) (r_na r_cl : Q),
    EvaporatorENRTL.mass_ratio_ion mw_comp = Ok ratio
    /\ ratio !! "Na+"%string = Some r_na
    /\ ratio !! "Cl-"%string = Some r_cl
    /\ r_na == 1 * w_na / (1 * w_na + 1 * w_cl)
    /\ r_cl == 1 * w_cl / (1 * w_na + 1 * w_cl)
    /\ r_na + r_cl == 1
    /\ forall b : EvaporatorENRTL.NonidealBlock,
         EvaporatorENRTL.mass_ratio (EvaporatorENRTL.enrtl_state b) = ratio ->
         let flow_mass_in :=
           flow_mass_phase_comp
             (EvaporatorENRTL.properties (EvaporatorENRTL.enrtl_state b)) in
         let flow_mass_TDS :=
           flow_mass_phase_comp
             (properties_brine (EvaporatorENRTL.evaporator b))
             ("Liq", "TDS")%string in
         exists c_na c_cl : EqualityExpression,
           EvaporatorENRTL.eq_enrtl_flow_mass_ion_comp b "Na+" = Ok c_na
           /\ EvaporatorENRTL.eq_enrtl_flow_mass_ion_comp b "Cl-" = Ok c_cl
           /\ c_na = {| lhs := flow_mass_in ("Liq", "Na+")%string;
                        rhs := flow_mass_TDS * r_na |}
           /\ c_cl = {| lhs := flow_mass_in ("Liq", "Cl-")%string;
                        rhs := flow_mass_TDS * r_cl |}
           /\ (holds c_na -> holds c_cl ->
               flow_mass_in ("Liq", "Na+")%string
               + flow_mass_in ("Liq", "Cl-")%string
               == flow_mass_TDS).
Proof.
  intros Hna Hcl Pna Pcl.
  set (r_na := w_na / (0 + 1 * w_na + 1 * w_cl)).
  set (r_cl := w_cl / (0 + 1 * w_na + 1 * w_cl)).
  exists (dict_literal [("Na+"%string, r_na); ("Cl-"%string, r_cl)]),
         r_na, r_cl.
  assert (Lna : (dict_literal [("Na+"%string, r_na); ("Cl-"%string, r_cl)]
                 : gmap string Q) !! "Na+"%string = Some r_na)
    by (cbn; rewrite lookup_insert_ne by discriminate;
        apply lookup_insert_eq).
  assert (Lcl : (dict_literal [("Na+"%string, r_na); ("Cl-"%string, r_cl)]
                 : gmap string Q) !! "Cl-"%string = Some r_cl)
    by (cbn; apply lookup_insert_eq).
  split; [apply (mass_ratio_ion_NaCl _ _ _ Hna Hcl Pna Pcl)|].
  split; [exact Lna|]. split; [exact Lcl|].
  split; [unfold r_na; field; lra|]. split; [unfold r_cl; field; lra|].
  split; [unfold r_na, r_cl; field; lra|].
  intros b Hratio flow_mass_in flow_mass_TDS.
  exists {| lhs := flow_mass_in ("Liq", "Na+")%string;
            rhs := flow_mass_TDS * r_na |},
         {| lhs := flow_mass_in ("Liq", "Cl-")%string;
            rhs := flow_mass_TDS * r_cl |}.
  split.
  { unfold EvaporatorENRTL.eq_enrtl_flow_mass_ion_comp.
    rewrite Hratio, (getitem_Some _ _ _ Lna). reflexivity. }
  split.
  { unfold EvaporatorENRTL.eq_enrtl_flow_mass_ion_comp.
    rewrite Hratio, (getitem_Some _ _ _ Lcl). reflexivity. }
  split; [reflexivity|]. split; [reflexivity|].
  unfold holds. cbn [lhs rhs]. intros Hc_na Hc_cl.
  rewrite Hc_na, Hc_cl. unfold r_na, r_cl. field. lra.
Qed.

(** The evaporator example: Na+ 22.990e-3 kg/mol, Cl- 35.453e-3 kg/mol, and
    a brine carrying 0.35 kg/s of TDS in 2 kg/s of water.  Both ion
    constraints are built and hold, and the ion mass flows of the eNRTL state
    add up to the 0.35 kg/s of TDS. *)
Lemma mass_ratio_ion_conserves_mass_witness :
  exists (ratio : gmap string Q) (r_na r_cl : Q) (c_na c_cl : EqualityExpression),
    EvaporatorENRTL.mass_ratio_ion EvaporatorENRTL.mw_comp_configuration
      = Ok ratio
    /\ ratio !! "Na+"%string = Some r_na
    /\ ratio !! "Cl-"%string = Some r_cl
    /\ r_na + r_cl == 1
    /\ EvaporatorENRTL.eq_enrtl_flow_mass_ion_comp (linked_block 0.35 2) "Na+"
       = Ok c_na
    /\ EvaporatorENRTL.eq_enrtl_flow_mass_ion_comp (linked_block 0.35 2) "Cl-"
       = Ok c_cl
    /\ rhs c_na == 0.35 * r_na
    /\ rhs c_cl == 0.35 * r_cl
    /\ holds c_na /\ holds c_cl
    /\ flow_mass_phase_comp
         (EvaporatorENRTL.properties
            (EvaporatorENRTL.enrtl_state (linked_block 0.35 2)))
         ("Liq", "Na+")%string
       + flow_mass_phase_comp
           (EvaporatorENRTL.properties
              (EvaporatorENRTL.enrtl_state (linked_block 0.35 2)))
           ("Liq", "Cl-")%string
       == 0.35.
Proof.
  destruct (mass_ratio_ion_conserves_mass
              EvaporatorENRTL.mw_comp_configuration 22.990e-3 35.453e-3
              eq_refl eq_refl eq_refl eq_refl)
    as (ratio & r_na & r_cl & H1 & H2 & H3 & H4 & H5 & H6 & H7).
  assert (E : EvaporatorENRTL.mass_ratio_ion
                EvaporatorENRTL.mw_comp_configuration
              = Ok (EvaporatorENRTL.mass_ratio
                      (EvaporatorENRTL.enrtl_state (linked_block 0.35 2))))
    by (vm_compute; reflexivity).
  rewrite H1 in E. injection E as E.
  destruct (H7 (linked_block 0.35 2) (eq_sym E))
    as (c_na & c_cl & Bna & Bcl & -> & -> & Hsum).
  assert (Hc_na : holds
            {| lhs := flow_mass_phase_comp
                        (EvaporatorENRTL.properties
                           (EvaporatorENRTL.enrtl_state (linked_block 0.35 2)))
                        ("Liq", "Na+")%string;
               rhs := flow_mass_phase_comp
                        (properties_brine
                           (EvaporatorENRTL.evaporator (linked_block 0.35 2)))
                        ("Liq", "TDS")%string * r_na |}).
  { unfold holds. cbn [lhs rhs]. rewrite H4. vm_compute. reflexivity. }
  assert (Hc_cl : holds
            {| lhs := flow_mass_phase_comp
                        (EvaporatorENRTL.properties
                           (EvaporatorENRTL.enrtl_state (linked_block 0.35 2)))
                        ("Liq", "Cl-")%string;
               rhs := flow_mass_phase_comp
                        (properties_brine
                           (EvaporatorENRTL.evaporator (linked_block 0.35 2)))
                        ("Liq", "TDS")%string * r_cl |}).
  { unfold holds. cbn [lhs rhs]. rewrite H5. vm_compute. reflexivity. }
  eexists ratio, r_na, r_cl, _, _.
  split; [exact H1|]. split; [exact H2|]. split; [exact H3|].
  split; [exact H6|]. split; [exact Bna|]. split; [exact Bcl|].
  split; [reflexivity|]. split; [reflexivity|].
  split; [exact Hc_na|]. split; [exact Hc_cl|].
  exact (Hsum Hc_na Hc_cl).
Defined.

(** ** Ideal and nonideal vapor-liquid equilibrium *)

(** With an activity coefficient of water equal to 1 the right-hand side of
    the nonideal constraint is the one of the ideal constraint. *)
Lemma nonideal_rhs_at_unit_activity (b : EvaporatorENRTL.NonidealBlock) :
  act_coeff_phase_comp
    (EvaporatorENRTL.properties (EvaporatorENRTL.enrtl_state b))
    ("Liq", "H2O")%string == 1 ->
  rhs (EvaporatorENRTL._eq_nonideal_phase_equilibrium b)
  == rhs (EvaporatorENRTL._eq_ideal_phase_equilibrium
            (EvaporatorENRTL.evaporator b)).
Proof.
  intros Hg. cbn [rhs EvaporatorENRTL._eq_nonideal_phase_equilibrium
                  EvaporatorENRTL._eq_ideal_phase_equilibrium].
  unfold EvaporatorENRTL.act_coeff. rewrite Hg. reflexivity.
Qed.

(** C10.  The nonideal equilibrium constraint refines the ideal one: when
    the eNRTL activity coefficient of water equals 1, the two constraints
    have the same left-hand side and equal right-hand sides, hence the same
    residual, and one holds (is satisfied) exactly when the other does, for
    every state of the evaporator and of the eNRTL block. *)
Theorem nonideal_equilibrium_refines_ideal (b : EvaporatorENRTL.NonidealBlock) :
  act_coeff_phase_comp
    (EvaporatorENRTL.properties (EvaporatorENRTL.enrtl_state b))
    ("Liq", "H2O")%string == 1 ->
  lhs (EvaporatorENRTL._eq_nonideal_phase_equilibrium b)
  = lhs (EvaporatorENRTL._eq_ideal_phase_equilibrium
           (EvaporatorENRTL.evaporator b))
  /\ rhs (EvaporatorENRTL._eq_nonideal_phase_equilibrium b)
     == rhs (EvaporatorENRTL._eq_ideal_phase_equilibrium
               (EvaporatorENRTL.evaporator b))
  /\ residual (EvaporatorENRTL._eq_nonideal_phase_equilibrium b)
     == residual (EvaporatorENRTL._eq_ideal_phase_equilibrium
                    (EvaporatorENRTL.evaporator b))
  /\ (holds (EvaporatorENRTL._eq_nonideal_phase_equilibrium b)
      <-> holds (EvaporatorENRTL._eq_ideal_phase_equilibrium
                   (EvaporatorENRTL.evaporator b)))
  /\ satisfied (EvaporatorENRTL._eq_nonideal_phase_equilibrium b)
     = satisfied (EvaporatorENRTL._eq_ideal_phase_equilibrium
                    (EvaporatorENRTL.evaporator b)).
Proof.
  intros Hg. pose proof (nonideal_rhs_at_unit_activity b Hg) as Hr.
  split; [reflexivity|]. split; [exact Hr|].
  split; [unfold residual; rewrite Hr; reflexivity|].
  assert (Hiff : holds (EvaporatorENRTL._eq_nonideal_phase_equilibrium b)
                 <-> holds (EvaporatorENRTL._eq_ideal_phase_equilibrium
                              (EvaporatorENRTL.evaporator b))).
  { unfold holds. rewrite Hr. reflexivity. }
  split; [exact Hiff|].
  unfold satisfied.
  destruct (Qeq_bool (lhs (EvaporatorENRTL._eq_ideal_phase_equilibrium _)) _)
    eqn:E.
  - apply Qeq_bool_iff. apply Hiff. apply Qeq_bool_iff, E.
  - destruct (Qeq_bool (lhs (EvaporatorENRTL._eq_nonideal_phase_equilibrium b)) _)
      eqn:E'; [|reflexivity].
    apply Qeq_bool_iff in E'. apply Hiff in E'. apply Qeq_bool_iff in E'.
    unfold holds in *. congruence.
Qed.

Lemma nonideal_equilibrium_refines_ideal_witness :
  act_coeff_phase_comp
    (EvaporatorENRTL.properties
       (EvaporatorENRTL.enrtl_state unit_activity_block))
    ("Liq", "H2O")%string == 1
  /\ (holds (EvaporatorENRTL._eq_nonideal_phase_equilibrium unit_activity_block)
      <-> holds (EvaporatorENRTL._eq_ideal_phase_equilibrium
                   (EvaporatorENRTL.evaporator unit_activity_block))).
Proof.
  split; [reflexivity|].
  apply (nonideal_equilibrium_refines_ideal unit_activity_block).
  reflexivity.
Defined.

(** ** The temperature correlations are partial *)

Section Correlations.
Import MultiElectrolyte.


Lemma relative_permittivity_expr_nonzero (T : Q) :
  ~ T == 0 ->
  relative_permittivity_expr T
  = Ok (78.54003 + 31989.38 * (1 / T * 1 - 1 / 298.15)).
Proof.
  intros HT. unfold relative_permittivity_expr.
  rewrite (pydiv_Ok 1 T HT). reflexivity.
Qed.

End Correlations.




(** ** The tau table is keyed by ordered pairs *)

(** Setting tau(a, b) leaves tau(b, a) as it was. *)
Lemma tau_insert_other_direction {K} `{Countable K}
    (tau : gmap (K * K) Q) (a b : K) (v : Q) :
  a <> b -> <[(a, b) := v]> tau !! (b, a) = tau !! (b, a).
Proof. intros Hab. apply lookup_insert_ne. intros [= -> _]. apply Hab, eq_refl. Qed.

(** Any two values can be configured for the two directions. *)
Lemma tau_directions_independent {K} `{Countable K}
    (tau : gmap (K * K) Q) (a b : K) (v w : Q) :
  a <> b ->
  <[(a, b) := v]> (<[(b, a) := w]> tau) !! (a, b) = Some v
  /\ <[(a, b) := v]> (<[(b, a) := w]> tau) !! (b, a) = Some w.
Proof.
  intros Hab. split; [apply lookup_insert_eq|].
  rewrite tau_insert_other_direction by exact Hab. apply lookup_insert_eq.
Qed.

(** A parameter that is not provided is zero. *)
Lemma tau_value_default
    (tau : gmap (MultiElectrolyte.species * MultiElectrolyte.species) Q)
    (k : MultiElectrolyte.species * MultiElectrolyte.species) :
  tau !! k = None -> MultiElectrolyte.tau_value tau k = 0.
Proof. intros Hk. unfold MultiElectrolyte.tau_value. rewrite Hk. reflexivity. Qed.

(** The documented tables give different values to the two directions. *)
Lemma Liq_tau_documented_values :
  EvaporatorENRTL.Liq_tau !! ("H2O", "Na+, Cl-")%string = Some 8.885
  /\ EvaporatorENRTL.Liq_tau !! ("Na+, Cl-", "H2O")%string = Some (-4.549)
  /\ SingleElectrolyte.Liq_tau !! ("H2O", "Na+, Cl-")%string = Some 7.951
  /\ SingleElectrolyte.Liq_tau !! ("Na+, Cl-", "H2O")%string = Some (-3.984)
  /\ ~ 8.885 == -4.549 /\ ~ 7.951 == -3.984.
Proof. repeat split; try reflexivity; discriminate. Qed.

(** ** The molal concentration of the solute *)

(** [molal_conc_solute] is defined exactly when neither the molecular
    weight of TDS nor the mass flow of water in the brine is zero. *)
Lemma molal_conc_solute_domain (mw_TDS : Q) (ev : Evaporator) :
  is_Ok (EvaporatorENRTL.molal_conc_solute mw_TDS ev)
  <-> ~ mw_TDS == 0
      /\ ~ flow_mass_phase_comp (properties_brine ev) ("Liq", "H2O")%string
           == 0.
Proof.
  unfold EvaporatorENRTL.molal_conc_solute.
  destruct (Qeq_dec mw_TDS 0) as [Hm|Hm].
  { rewrite (pydiv_Raise _ _ Hm). cbn. tauto. }
  rewrite (pydiv_Ok _ _ Hm). cbn [mbind result_bind].
  destruct (Qeq_dec (flow_mass_phase_comp (properties_brine ev)
                       ("Liq", "H2O")%string) 0) as [Hw|Hw].
  { rewrite (pydiv_Raise _ _ Hw). cbn. tauto. }
  rewrite (pydiv_Ok _ _ Hw). cbn. tauto.
Qed.

(** ** Counting the tau parameters *)

Section Counting.
Context {A B : Type}.

Lemma NoDup_list_prod (l : list A) (k : list B) :
  NoDup l -> NoDup k -> NoDup (list_prod l k).
Proof.
  intros Hl Hk. induction Hl as [|a l Ha Hl IH]; simpl; [constructor|].
  apply NoDup_app. split.
  { apply (NoDup_fmap_2 (pair a)). exact Hk. }
  split; [|exact IH].
  intros [a' b] Hin1 Hin2.
  apply list_elem_of_fmap in Hin1 as (b' & [= -> ->] & _).
  apply list_elem_of_In, in_prod_iff in Hin2 as [Hin _].
  apply Ha, list_elem_of_In, Hin.
Qed.

Lemma length_filter_fmap {X C} (f : X -> C) (P : C -> Prop)
    `{!forall x, Decision (P x)} (l : list X) :
  length (filter P (f <$> l)) = length (filter (fun a => P (f a)) l).
Proof.
  induction l as [|a l IH]; [reflexivity|].
  rewrite fmap_cons, !filter_cons.
  destruct (decide (P (f a))); simpl; rewrite IH; reflexivity.
Qed.

Lemma length_filter_ext (P R : A -> Prop) `{!forall x, Decision (P x)}
    `{!forall x, Decision (R x)} (l : list A) :
  (forall a, a ∈ l -> P a <-> R a) ->
  length (filter P l) = length (filter R l).
Proof.
  induction l as [|a l IH]; intros Hext; [reflexivity|].
  rewrite !filter_cons.
  assert (Ha : P a <-> R a) by (apply Hext; left).
  assert (Hl : length (filter P l) = length (filter R l))
    by (apply IH; intros; apply Hext; right; assumption).
  destruct (decide (P a)), (decide (R a)); simpl; try tauto; lia.
Qed.

Lemma length_filter_list_prod (P : A * B -> Prop)
    `{!forall x, Decision (P x)} (l : list A) (k : list B) :
  length (filter P (list_prod l k))
  = sum_list_with (fun a => length (filter (fun b => P (a, b)) k)) l.
Proof.
  induction l as [|a l IH]; [reflexivity|].
  cbn [list_prod sum_list_with].
  rewrite filter_app, length_app, IH. f_equal.
  apply (length_filter_fmap (pair a) P k).
Qed.

Lemma sum_list_with_const (f : A -> nat) (c : nat) (l : list A) :
  (forall a, a ∈ l -> f a = c) -> sum_list_with f l = (length l * c)%nat.
Proof.
  induction l as [|a l IH]; intros Hc; [reflexivity|].
  cbn [sum_list_with length]. rewrite (Hc a) by left.
  rewrite IH by (intros; apply Hc; right; assumption). lia.
Qed.

Lemma sum_list_with_one_off (f : A -> nat) (a0 : A) (c0 c : nat) (l : list A) :
  NoDup l -> a0 ∈ l -> f a0 = c0 ->
  (forall a, a ∈ l -> a <> a0 -> f a = c) ->
  sum_list_with f l = (c0 + (length l - 1) * c)%nat.
Proof.
  intros Hnd. induction Hnd as [|a l Ha Hnd IH]; intros Hin H0 Hc.
  { inversion Hin. }
  cbn [sum_list_with length].
  apply elem_of_cons in Hin as [<-|Hin].
  - rewrite H0. rewrite (sum_list_with_const f c l).
    + lia.
    + intros a Hal. apply Hc; [right; exact Hal|]. intros ->. contradiction.
  - rewrite (Hc a); [|left|intros ->; contradiction].
    rewrite IH; [|exact Hin|exact H0|intros; apply Hc; [right|]; assumption].
    assert (1 <= length l)%nat by (destruct l; [inversion Hin|simpl; lia]).
    nia.
Qed.

Context `{!EqDecision A}.

Lemma length_filter_eq_NoDup (a0 : A) (l : list A) :
  NoDup l -> a0 ∈ l -> length (filter (fun a => a0 = a) l) = 1%nat.
Proof.
  intros Hnd. induction Hnd as [|a l Ha Hnd IH]; intros Hin.
  { inversion Hin. }
  rewrite filter_cons. destruct (decide (a0 = a)) as [<-|Hne].
  - simpl. f_equal. destruct (filter (fun a => a0 = a) l) as [|b r] eqn:E;
      [reflexivity|].
    assert (Hb : b ∈ filter (fun a => a0 = a) l) by (rewrite E; left).
    apply list_elem_of_filter in Hb as [<- Hb]. contradiction.
  - apply IH. apply elem_of_cons in Hin as [->|Hin]; [contradiction|exact Hin].
Qed.

Lemma length_filter_ne_NoDup (a0 : A) (l : list A) :
  NoDup l -> a0 ∈ l ->
  length (filter (fun a => a0 <> a) l) = (length l - 1)%nat.
Proof.
  intros Hnd Hin.
  pose proof (length_filter_eq_NoDup a0 l Hnd Hin) as Heq.
  pose proof (filter_app_complement (fun a => a0 = a) l) as Hperm.
  apply Permutation_length in Hperm. rewrite length_app in Hperm.
  lia.
Qed.

End Counting.

Section TauKeys.
Import MultiElectrolyte.

Variables cations anions : list string.
Hypothesis NoDup_cations : NoDup cations.
Hypothesis NoDup_anions : NoDup anions.

Lemma length_ion_pairs :
  length (ion_pairs cations anions) = (length cations * length anions)%nat.
Proof. unfold ion_pairs. rewrite length_fmap. apply length_prod. Qed.

Lemma elem_of_ion_pairs (p : species) :
  p ∈ ion_pairs cations anions
  <-> exists c a, p = IonPair c a /\ c ∈ cations /\ a ∈ anions.
Proof.
  unfold ion_pairs. rewrite list_elem_of_fmap. split.
  - intros ([c a] & -> & Hin). exists c, a.
    apply list_elem_of_In, in_prod_iff in Hin as [Hc Ha].
    rewrite !list_elem_of_In. auto.
  - intros (c & a & -> & Hc & Ha). exists (c, a). split; [reflexivity|].
    apply list_elem_of_In, in_prod_iff. rewrite <- !list_elem_of_In. auto.
Qed.

Lemma NoDup_ion_pairs : NoDup (ion_pairs cations anions).
Proof.
  unfold ion_pairs. apply NoDup_fmap_2.
  - intros [c a] [c' a'] [= -> ->]. reflexivity.
  - apply NoDup_list_prod; assumption.
Qed.

Lemma count_common_ion (c a : string) :
  c ∈ cations -> a ∈ anions ->
  length (filter (fun q => Is_true (share_one_common_ion (IonPair c a) q))
                 (ion_pairs cations anions))
  = ((length anions - 1) + (length cations - 1))%nat.
Proof.
  intros Hc Ha. unfold ion_pairs.
  rewrite (length_filter_fmap (fun ca : string * string => IonPair ca.1 ca.2)
             (fun q => Is_true (share_one_common_ion (IonPair c a) q))).
  rewrite (length_filter_list_prod
             (fun ca : string * string =>
                Is_true (share_one_common_ion (IonPair c a)
                           (IonPair ca.1 ca.2)))).
  rewrite (sum_list_with_one_off _ c (length anions - 1) 1 cations
             NoDup_cations Hc).
  - lia.
  - rewrite <- (length_filter_ne_NoDup a anions NoDup_anions Ha).
    apply length_filter_ext. intros a' _. cbn.
    rewrite bool_decide_eq_true_2 by reflexivity.
    destruct (decide (a = a')) as [->|Hne].
    + rewrite bool_decide_eq_true_2 by reflexivity. cbn. tauto.
    + rewrite bool_decide_eq_false_2 by exact Hne. cbn. tauto.
  - intros c' _ Hne.
    rewrite <- (length_filter_eq_NoDup a anions NoDup_anions Ha).
    apply length_filter_ext. intros a' _. cbn.
    rewrite (bool_decide_eq_false_2 (c = c')) by (intros ->; contradiction).
    destruct (decide (a = a')) as [->|Hne'].
    + rewrite bool_decide_eq_true_2 by reflexivity. cbn. tauto.
    + rewrite bool_decide_eq_false_2 by exact Hne'. cbn. tauto.
Qed.

Lemma length_tau_ion_pair_ion_pair_keys :
  length (tau_ion_pair_ion_pair_keys cations anions)
  = (N_tau_ion_pair_ion_pair (length cations) (length anions)
     + N_tau_ion_pair_ion_pair' (length cations) (length anions))%nat.
Proof.
  unfold tau_ion_pair_ion_pair_keys.
  rewrite (length_filter_list_prod
             (fun k : species * species =>
                Is_true (share_one_common_ion k.1 k.2))).
  rewrite (sum_list_with_const _
             ((length anions - 1) + (length cations - 1))%nat).
  - rewrite length_ion_pairs.
    unfold N_tau_ion_pair_ion_pair, N_tau_ion_pair_ion_pair'. nia.
  - intros p Hp. apply elem_of_ion_pairs in Hp as (c & a & -> & Hc & Ha).
    apply count_common_ion; assumption.
Qed.

End TauKeys.

Section Validation.
Import MultiElectrolyte.

Variable s : string.
Variables cations anions : list string.
Variable tau : gmap (species * species) Q.
Hypothesis NoDup_cations : NoDup cations.
Hypothesis NoDup_anions : NoDup anions.

Lemma check_Liq_tau_Ok :
  check_Liq_tau s cations anions tau = Ok tt
  <-> (forall k, k ∈ tau_solvent_ion_pair_keys s cations anions
                     ++ tau_ion_pair_solvent_keys s cations anions ->
                 is_Some (tau !! k))
      /\ (forall k, is_Some (tau !! k) ->
                    k ∈ (tau_solvent_ion_pair_keys s cations anions
                         ++ tau_ion_pair_solvent_keys s cations anions)
                        ++ tau_ion_pair_ion_pair_keys cations anions).
Proof.
  unfold check_Liq_tau. rewrite <- Forall_forall.
  destruct (bool_decide _) eqn:E1.
  - apply bool_decide_eq_true in E1.
    destruct (bool_decide (dom tau ⊆ _)) eqn:E2.
    + apply bool_decide_eq_true in E2. split; [|reflexivity].
      intros _. split; [exact E1|].
      intros k Hk. apply elem_of_dom in Hk. apply E2 in Hk.
      apply elem_of_list_to_set in Hk. exact Hk.
    + apply bool_decide_eq_false in E2. split; [discriminate|].
      intros [_ Hv]. exfalso. apply E2. intros k Hk.
      apply elem_of_list_to_set, Hv, elem_of_dom, Hk.
  - apply bool_decide_eq_false in E1. split; [discriminate|].
    intros [Hr _]. contradiction.
Qed.

Lemma check_Liq_tau_Raise (e : error) :
  check_Liq_tau s cations anions tau = Raise e -> e = ConfigurationError.
Proof.
  unfold check_Liq_tau.
  repeat (destruct (bool_decide _)); intros [=]; congruence.
Qed.

Lemma shape_solvent_ion_pair (k : species * species) :
  k ∈ tau_solvent_ion_pair_keys s cations anions ->
  is_solvent_ion_pair k = true.
Proof.
  unfold tau_solvent_ion_pair_keys. rewrite list_elem_of_fmap.
  intros (p & -> & Hp). apply elem_of_ion_pairs in Hp as (c & a & -> & _).
  reflexivity.
Qed.

Lemma shape_ion_pair_solvent (k : species * species) :
  k ∈ tau_ion_pair_solvent_keys s cations anions ->
  is_ion_pair_solvent k = true.
Proof.
  unfold tau_ion_pair_solvent_keys. rewrite list_elem_of_fmap.
  intros (p & -> & Hp). apply elem_of_ion_pairs in Hp as (c & a & -> & _).
  reflexivity.
Qed.

Lemma shape_ion_pair_ion_pair (k : species * species) :
  k ∈ tau_ion_pair_ion_pair_keys cations anions ->
  is_ion_pair_ion_pair k = true.
Proof.
  unfold tau_ion_pair_ion_pair_keys. rewrite list_elem_of_filter.
  intros [Hshare _]. destruct k as [[?|? ?] [?|? ?]]; cbn in *; tauto.
Qed.

Lemma NoDup_tau_solvent_ion_pair_keys :
  NoDup (tau_solvent_ion_pair_keys s cations anions).
Proof.
  unfold tau_solvent_ion_pair_keys.
  apply (NoDup_fmap_2 _), NoDup_ion_pairs; assumption.
Qed.

Lemma NoDup_tau_ion_pair_solvent_keys :
  NoDup (tau_ion_pair_solvent_keys s cations anions).
Proof.
  unfold tau_ion_pair_solvent_keys.
  apply NoDup_fmap_2; [|apply NoDup_ion_pairs; assumption].
  intros p q [= ->]. reflexivity.
Qed.

Lemma NoDup_tau_ion_pair_ion_pair_keys :
  NoDup (tau_ion_pair_ion_pair_keys cations anions).
Proof.
  unfold tau_ion_pair_ion_pair_keys.
  apply NoDup_filter, NoDup_list_prod; apply NoDup_ion_pairs; assumption.
Qed.

Lemma count_tau_keys (shape : species * species -> bool)
    (keys : list (species * species)) :
  NoDup keys ->
  (forall k, k ∈ keys <-> is_Some (tau !! k) /\ shape k = true) ->
  count_tau shape tau = length keys.
Proof.
  intros Hnd Hkeys. unfold count_tau.
  rewrite <- (size_dom (D := gset (species * species))).
  rewrite (dom_filter_L _ tau (list_to_set keys)).
  - apply size_list_to_set, Hnd.
  - intros k. rewrite elem_of_list_to_set, Hkeys. unfold is_Some. cbn.
    split.
    + intros [[v Hv] Hs]. exists v. split; [exact Hv|]. apply Is_true_true, Hs.
    + intros [v [Hv Hs]]. split; [exists v; exact Hv|]. apply Is_true_true, Hs.
Qed.

Lemma count_tau_le (shape : species * species -> bool)
    (keys : list (species * species)) :
  NoDup keys ->
  (forall k, is_Some (tau !! k) -> shape k = true -> k ∈ keys) ->
  (count_tau shape tau <= length keys)%nat.
Proof.
  intros Hnd Hkeys. unfold count_tau.
  rewrite <- (size_dom (D := gset (species * species))).
  rewrite <- (size_list_to_set (C := gset (species * species)) keys Hnd).
  apply subseteq_size. intros k Hk.
  apply elem_of_dom in Hk as [v Hv].
  apply map_lookup_filter_Some in Hv as [Hv Hs]. cbn in Hs.
  apply elem_of_list_to_set, Hkeys; [eauto|]. apply Is_true_true, Hs.
Qed.

Hypothesis Hcheck : check_Liq_tau s cations anions tau = Ok tt.

Lemma count_tau_solvent_ion_pair :
  count_tau is_solvent_ion_pair tau
  = N_tau_solvent_ion_pair (length cations) (length anions).
Proof.
  apply check_Liq_tau_Ok in Hcheck as [Hreq Hvalid].
  rewrite (count_tau_keys _ (tau_solvent_ion_pair_keys s cations anions)).
  - unfold tau_solvent_ion_pair_keys. rewrite length_fmap.
    apply length_ion_pairs.
  - apply NoDup_tau_solvent_ion_pair_keys.
  - intros k. split.
    + intros Hk. split; [|apply shape_solvent_ion_pair, Hk].
      apply Hreq, elem_of_app. left. exact Hk.
    + intros [Hk Hs]. apply Hvalid in Hk.
      rewrite !elem_of_app in Hk. destruct Hk as [[Hk|Hk]|Hk]; [exact Hk| |].
      * apply shape_ion_pair_solvent in Hk.
        destruct k as [[?|? ?] [?|? ?]]; discriminate.
      * apply shape_ion_pair_ion_pair in Hk.
        destruct k as [[?|? ?] [?|? ?]]; discriminate.
Qed.

Lemma count_tau_ion_pair_solvent :
  count_tau is_ion_pair_solvent tau
  = N_tau_ion_pair_solvent (length cations) (length anions).
Proof.
  apply check_Liq_tau_Ok in Hcheck as [Hreq Hvalid].
  rewrite (count_tau_keys _ (tau_ion_pair_solvent_keys s cations anions)).
  - unfold tau_ion_pair_solvent_keys. rewrite length_fmap.
    apply length_ion_pairs.
  - apply NoDup_tau_ion_pair_solvent_keys.
  - intros k. split.
    + intros Hk. split; [|apply shape_ion_pair_solvent, Hk].
      apply Hreq, elem_of_app. right. exact Hk.
    + intros [Hk Hs]. apply Hvalid in Hk.
      rewrite !elem_of_app in Hk. destruct Hk as [[Hk|Hk]|Hk]; [|exact Hk|].
      * apply shape_solvent_ion_pair in Hk.
        destruct k as [[?|? ?] [?|? ?]]; discriminate.
      * apply shape_ion_pair_ion_pair in Hk.
        destruct k as [[?|? ?] [?|? ?]]; discriminate.
Qed.

Lemma count_tau_ion_pair_ion_pair :
  (count_tau is_ion_pair_ion_pair tau
   <= N_tau_ion_pair_ion_pair (length cations) (length anions)
      + N_tau_ion_pair_ion_pair' (length cations) (length anions))%nat.
Proof.
  apply check_Liq_tau_Ok in Hcheck as [Hreq Hvalid].
  rewrite <- (length_tau_ion_pair_ion_pair_keys cations anions)
    by assumption.
  apply count_tau_le; [apply NoDup_tau_ion_pair_ion_pair_keys|].
  intros k Hk Hs. apply Hvalid in Hk.
  rewrite !elem_of_app in Hk. destruct Hk as [[Hk|Hk]|Hk]; [| |exact Hk].
  - apply shape_solvent_ion_pair in Hk.
    destruct k as [[?|? ?] [?|? ?]]; discriminate.
  - apply shape_ion_pair_solvent in Hk.
    destruct k as [[?|? ?] [?|? ?]]; discriminate.
Qed.

End Validation.

(** C2, refuted as stated.  In the documented NaCl-Na2SO4 configuration
    (x = 1 cation, y = 2 anions) the table is accepted and holds 2
    ion-pair/ion-pair parameters, whereas x*y*(x-1) = 0; the two counts of
    the guide, x*y*(x-1) and y*x*(y-1), are alternatives that differ here. *)
Lemma Liq_tau_example_cross_count :
  MultiElectrolyte.check_Liq_tau MultiElectrolyte.solvent
    MultiElectrolyte.cation MultiElectrolyte.anion MultiElectrolyte.Liq_tau
  = Ok tt
  /\ length MultiElectrolyte.cation = 1%nat
  /\ length MultiElectrolyte.anion = 2%nat
  /\ MultiElectrolyte.count_tau MultiElectrolyte.is_ion_pair_ion_pair
       MultiElectrolyte.Liq_tau = 2%nat
  /\ MultiElectrolyte.N_tau_ion_pair_ion_pair 1 2 = 0%nat
  /\ MultiElectrolyte.N_tau_ion_pair_ion_pair' 1 2 = 2%nat
  /\ MultiElectrolyte.count_tau MultiElectrolyte.is_ion_pair_ion_pair
       MultiElectrolyte.Liq_tau
     <> MultiElectrolyte.N_tau_ion_pair_ion_pair 1 2
  /\ MultiElectrolyte.N_tau_ion_pair_ion_pair 1 2
     <> MultiElectrolyte.N_tau_ion_pair_ion_pair' 1 2.
Proof. vm_compute. repeat split; discriminate. Qed.

(** C2, amended.  For x distinct cations and y distinct anions there are
    exactly x*y keys tau(solvent, ion pair) and exactly x*y keys
    tau(ion pair, solvent).  The keys between ion pairs sharing one and only
    one ion number y*x*(y-1) when there is a single cation and x*y*(x-1)
    when there is a single anion: the two counts are alternatives.  A table
    that passes the validation holds exactly x*y parameters of each
    solvent/ion-pair direction and, with a single cation or a single anion,
    at most that many ion-pair/ion-pair parameters (they are optional and
    default to zero); a table violating these cardinalities is rejected with
    [ConfigurationError]. *)
Theorem Liq_tau_cardinality (s : string) (cations anions : list string)
    (tau : gmap (MultiElectrolyte.species * MultiElectrolyte.species) Q) :
  NoDup cations -> NoDup anions ->
  let x := length cations in
  let y := length anions in
  let count := MultiElectrolyte.count_tau in
  (length (MultiElectrolyte.tau_solvent_ion_pair_keys s cations anions)
   = MultiElectrolyte.N_tau_solvent_ion_pair x y
   /\ length (MultiElectrolyte.tau_ion_pair_solvent_keys s cations anions)
      = MultiElectrolyte.N_tau_ion_pair_solvent x y
   /\ (x = 1%nat ->
       length (MultiElectrolyte.tau_ion_pair_ion_pair_keys cations anions)
       = MultiElectrolyte.N_tau_ion_pair_ion_pair' x y)
   /\ (y = 1%nat ->
       length (MultiElectrolyte.tau_ion_pair_ion_pair_keys cations anions)
       = MultiElectrolyte.N_tau_ion_pair_ion_pair x y))
  /\ (MultiElectrolyte.check_Liq_tau s cations anions tau = Ok tt ->
      count MultiElectrolyte.is_solvent_ion_pair tau
      = MultiElectrolyte.N_tau_solvent_ion_pair x y
      /\ count MultiElectrolyte.is_ion_pair_solvent tau
         = MultiElectrolyte.N_tau_ion_pair_solvent x y
      /\ (x = 1%nat ->
          (count MultiElectrolyte.is_ion_pair_ion_pair tau
           <= MultiElectrolyte.N_tau_ion_pair_ion_pair' x y)%nat)
      /\ (y = 1%nat ->
          (count MultiElectrolyte.is_ion_pair_ion_pair tau
           <= MultiElectrolyte.N_tau_ion_pair_ion_pair x y)%nat))
  /\ (count MultiElectrolyte.is_solvent_ion_pair tau
      <> MultiElectrolyte.N_tau_solvent_ion_pair x y
      \/ count MultiElectrolyte.is_ion_pair_solvent tau
         <> MultiElectrolyte.N_tau_ion_pair_solvent x y
      \/ (x = 1%nat
          /\ (MultiElectrolyte.N_tau_ion_pair_ion_pair' x y
              < count MultiElectrolyte.is_ion_pair_ion_pair tau)%nat)
      \/ (y = 1%nat
          /\ (MultiElectrolyte.N_tau_ion_pair_ion_pair x y
              < count MultiElectrolyte.is_ion_pair_ion_pair tau)%nat) ->
      MultiElectrolyte.check_Liq_tau s cations anions tau
      = Raise ConfigurationError).
Proof.
  intros Hc Ha x y count.
  pose proof (length_tau_ion_pair_ion_pair_keys cations anions Hc Ha)
    as Hcross.
  fold x y in Hcross.
  assert (Hx : x = 1%nat ->
               (MultiElectrolyte.N_tau_ion_pair_ion_pair x y
                + MultiElectrolyte.N_tau_ion_pair_ion_pair' x y)%nat
               = MultiElectrolyte.N_tau_ion_pair_ion_pair' x y).
  { intros ->. unfold MultiElectrolyte.N_tau_ion_pair_ion_pair. lia. }
  assert (Hy : y = 1%nat ->
               (MultiElectrolyte.N_tau_ion_pair_ion_pair x y
                + MultiElectrolyte.N_tau_ion_pair_ion_pair' x y)%nat
               = MultiElectrolyte.N_tau_ion_pair_ion_pair x y).
  { intros ->. unfold MultiElectrolyte.N_tau_ion_pair_ion_pair'. lia. }
  assert (Hok : MultiElectrolyte.check_Liq_tau s cations anions tau = Ok tt ->
      count MultiElectrolyte.is_solvent_ion_pair tau
      = MultiElectrolyte.N_tau_solvent_ion_pair x y
      /\ count MultiElectrolyte.is_ion_pair_solvent tau
         = MultiElectrolyte.N_tau_ion_pair_solvent x y
      /\ (x = 1%nat ->
          (count MultiElectrolyte.is_ion_pair_ion_pair tau
           <= MultiElectrolyte.N_tau_ion_pair_ion_pair' x y)%nat)
      /\ (y = 1%nat ->
          (count MultiElectrolyte.is_ion_pair_ion_pair tau
           <= MultiElectrolyte.N_tau_ion_pair_ion_pair x y)%nat)).
  { intros Hcheck.
    pose proof (count_tau_ion_pair_ion_pair s cations anions tau Hc Ha
                  Hcheck) as Hle.
    fold x y in Hle.
    split; [apply (count_tau_solvent_ion_pair s); assumption|].
    split; [apply (count_tau_ion_pair_solvent s); assumption|].
    split.
    - intros H1. rewrite <- (Hx H1). exact Hle.
    - intros H1. rewrite <- (Hy H1). exact Hle. }
  split; [|split; [exact Hok|]].
  - split; [|split; [|split]].
    + unfold MultiElectrolyte.tau_solvent_ion_pair_keys.
      rewrite length_fmap. apply length_ion_pairs.
    + unfold MultiElectrolyte.tau_ion_pair_solvent_keys.
      rewrite length_fmap. apply length_ion_pairs.
    + intros H1. rewrite Hcross. apply Hx, H1.
    + intros H1. rewrite Hcross. apply Hy, H1.
  - intros Hviolated.
    destruct (MultiElectrolyte.check_Liq_tau s cations anions tau)
      as [[]|e] eqn:E.
    + destruct (Hok eq_refl) as (H1 & H2 & H3 & H4).
      destruct Hviolated as [Hv|[Hv|[[Hv1 Hv]|[Hv1 Hv]]]].
      * contradiction.
      * contradiction.
      * specialize (H3 Hv1). lia.
      * specialize (H4 Hv1). lia.
    + f_equal. apply (check_Liq_tau_Raise s cations anions tau), E.
Qed.

(** The documented NaCl-Na2SO4 configuration. *)
Lemma Liq_tau_cardinality_witness :
  NoDup MultiElectrolyte.cation /\ NoDup MultiElectrolyte.anion
  /\ MultiElectrolyte.count_tau MultiElectrolyte.is_solvent_ion_pair
       MultiElectrolyte.Liq_tau = 2%nat
  /\ MultiElectrolyte.count_tau MultiElectrolyte.is_ion_pair_solvent
       MultiElectrolyte.Liq_tau = 2%nat
  /\ (MultiElectrolyte.count_tau MultiElectrolyte.is_ion_pair_ion_pair
        MultiElectrolyte.Liq_tau <= 2)%nat.
Proof.
  assert (Hc : NoDup MultiElectrolyte.cation)
    by (apply (bool_decide_unpack _); vm_compute; exact I).
  assert (Ha : NoDup MultiElectrolyte.anion)
    by (apply (bool_decide_unpack _); vm_compute; exact I).
  split; [exact Hc|]. split; [exact Ha|].
  destruct (proj1 (proj2 (Liq_tau_cardinality MultiElectrolyte.solvent
                            MultiElectrolyte.cation MultiElectrolyte.anion
                            MultiElectrolyte.Liq_tau Hc Ha)))
    as (H1 & H2 & H3 & _).
  - vm_compute. reflexivity.
  - split; [exact H1|]. split; [exact H2|]. apply H3. reflexivity.
Defined.

(** * Further properties of the embedded code *)

(** ** The link between the brine and the eNRTL state *)

Section IonLink.
Import EvaporatorENRTL.

Lemma mass_ratio_ion_Ok_inv (mw_comp ratio : gmap string Q) :
  mass_ratio_ion mw_comp = Ok ratio ->
  exists w_na w_cl total,
    mw_comp !! "Na+"%string = Some w_na
    /\ mw_comp !! "Cl-"%string = Some w_cl
    /\ total = 0 + 1 * w_na + 1 * w_cl
    /\ ~ total == 0
    /\ ratio = dict_literal [("Na+"%string, w_na / total);
                             ("Cl-"%string, w_cl / total)].
Proof.
  unfold mass_ratio_ion, mol_mass_ion_molecule, pysum, set_ions.
  cbn [fold_left].
  rewrite (getitem_Some ion_coeff "Na+"%string 1 eq_refl).
  rewrite (getitem_Some ion_coeff "Cl-"%string 1 eq_refl).
  unfold getitem.
  destruct (mw_comp !! "Na+"%string) as [w_na|]; [|discriminate].
  destruct (mw_comp !! "Cl-"%string) as [w_cl|]; [|discriminate].
  cbn [mbind result_bind mret result_ret].
  unfold pydiv.
  destruct (Qeq_bool (0 + 1 * w_na + 1 * w_cl) 0) eqn:E; [discriminate|].
  cbn [mbind result_bind]. intros [= <-].
  exists w_na, w_cl, (0 + 1 * w_na + 1 * w_cl).
  repeat split; try reflexivity.
  intros H0. apply Qeq_bool_iff in H0. congruence.
Qed.

Lemma ratio_lookup_Na (r_na r_cl : Q) :
  (dict_literal [("Na+"%string, r_na); ("Cl-"%string, r_cl)] : gmap string Q)
    !! "Na+"%string = Some r_na.
Proof. cbn. rewrite lookup_insert_ne by discriminate. apply lookup_insert_eq. Qed.

Lemma ratio_lookup_Cl (r_na r_cl : Q) :
  (dict_literal [("Na+"%string, r_na); ("Cl-"%string, r_cl)] : gmap string Q)
    !! "Cl-"%string = Some r_cl.
Proof. cbn. apply lookup_insert_eq. Qed.

Lemma ratio_lookup_other (r_na r_cl : Q) (j : string) :
  j <> "Na+"%string -> j <> "Cl-"%string ->
  (dict_literal [("Na+"%string, r_na); ("Cl-"%string, r_cl)] : gmap string Q)
    !! j = None.
Proof.
  intros H1 H2. cbn. rewrite !lookup_insert_ne by congruence.
  apply lookup_empty.
Qed.

(** The ion mass flows fixed by the two ion constraints. *)
Lemma ion_flows_of_constraints (mw_comp : gmap string Q)
    (b : NonidealBlock) (c_na c_cl : EqualityExpression) :
  mass_ratio_ion mw_comp = Ok (mass_ratio (enrtl_state b)) ->
  eq_enrtl_flow_mass_ion_comp b "Na+" = Ok c_na ->
  eq_enrtl_flow_mass_ion_comp b "Cl-" = Ok c_cl ->
  holds c_na -> holds c_cl ->
  exists w_na w_cl,
    mw_comp !! "Na+"%string = Some w_na
    /\ mw_comp !! "Cl-"%string = Some w_cl
    /\ ~ w_na + w_cl == 0
    /\ flow_mass_phase_comp (properties (enrtl_state b)) ("Liq", "Na+")%string
       == flow_mass_phase_comp (properties_brine (evaporator b))
            ("Liq", "TDS")%string * (w_na / (w_na + w_cl))
    /\ flow_mass_phase_comp (properties (enrtl_state b)) ("Liq", "Cl-")%string
       == flow_mass_phase_comp (properties_brine (evaporator b))
            ("Liq", "TDS")%string * (w_cl / (w_na + w_cl)).
Proof.
  intros Hratio Ena Ecl Hna Hcl.
  apply mass_ratio_ion_Ok_inv in Hratio
    as (w_na & w_cl & total & Lna & Lcl & -> & Hnz & Hr).
  exists w_na, w_cl. split; [exact Lna|]. split; [exact Lcl|].
  assert (Hnz' : ~ w_na + w_cl == 0) by (intros H0; apply Hnz; lra).
  split; [exact Hnz'|].
  unfold eq_enrtl_flow_mass_ion_comp in Ena, Ecl. rewrite Hr in Ena, Ecl.
  rewrite (getitem_Some _ _ _ (ratio_lookup_Na _ _)) in Ena.
  rewrite (getitem_Some _ _ _ (ratio_lookup_Cl _ _)) in Ecl.
  cbn [mbind result_bind] in Ena, Ecl.
  injection Ena as <-. injection Ecl as <-.
  unfold holds in Hna, Hcl. cbn [lhs rhs] in Hna, Hcl.
  rewrite Hna, Hcl. split; field; lra.
Qed.

End IonLink.


(** X1.  The TDS-to-ion conversion gives an electroneutral solution: when
    the two ion mass-flow constraints hold with the mass ratios computed by
    [mass_ratio_ion] for positive molecular weights, the mole flows of Na+
    and Cl- in the eNRTL state are equal, both the TDS mass flow over the
    molar mass of the ion molecule. *)
Theorem ion_link_electroneutral (mw_comp : gmap string Q)
    (b : EvaporatorENRTL.NonidealBlock) (c_na c_cl : EqualityExpression)
    (w_na w_cl : Q) :
  mw_comp !! "Na+"%string = Some w_na ->
  mw_comp !! "Cl-"%string = Some w_cl ->
  0 < w_na -> 0 < w_cl ->
  EvaporatorENRTL.mass_ratio_ion mw_comp
  = Ok (EvaporatorENRTL.mass_ratio (EvaporatorENRTL.enrtl_state b)) ->
  EvaporatorENRTL.eq_enrtl_flow_mass_ion_comp b "Na+" = Ok c_na ->
  EvaporatorENRTL.eq_enrtl_flow_mass_ion_comp b "Cl-" = Ok c_cl ->
  holds c_na -> holds c_cl ->
  flow_mass_phase_comp
    (EvaporatorENRTL.properties (EvaporatorENRTL.enrtl_state b))
    ("Liq", "Na+")%string / w_na
  == flow_mass_phase_comp
       (EvaporatorENRTL.properties (EvaporatorENRTL.enrtl_state b))
       ("Liq", "Cl-")%string / w_cl
  /\ flow_mass_phase_comp
       (EvaporatorENRTL.properties (EvaporatorENRTL.enrtl_state b))
       ("Liq", "Na+")%string / w_na
     == flow_mass_phase_comp
          (properties_brine (EvaporatorENRTL.evaporator b))
          ("Liq", "TDS")%string / (w_na + w_cl).
Proof.
  intros Lna Lcl Pna Pcl Hratio Ena Ecl Hna Hcl.
  destruct (ion_flows_of_constraints mw_comp b c_na c_cl Hratio Ena Ecl
              Hna Hcl) as (w_na' & w_cl' & Lna' & Lcl' & _ & Fna & Fcl).
  rewrite Lna in Lna'. rewrite Lcl in Lcl'.
  injection Lna' as <-. injection Lcl' as <-.
  rewrite Fna, Fcl. split; field; lra.
Qed.

Lemma ion_link_electroneutral_witness :
  flow_mass_phase_comp
    (EvaporatorENRTL.properties
       (EvaporatorENRTL.enrtl_state (linked_block 0.35 2)))
    ("Liq", "Na+")%string / 22.990e-3
  == flow_mass_phase_comp
       (EvaporatorENRTL.properties
          (EvaporatorENRTL.enrtl_state (linked_block 0.35 2)))
       ("Liq", "Cl-")%string / 35.453e-3.
Proof.
  eapply (ion_link_electroneutral EvaporatorENRTL.mw_comp_configuration
            (linked_block 0.35 2) _ _ 22.990e-3 35.453e-3
            eq_refl eq_refl eq_refl eq_refl eq_refl eq_refl eq_refl).
  - reflexivity.
  - reflexivity.
Defined.

(** X2.  The linked eNRTL state carries the mass of the brine: when the
    water constraint and the two ion constraints hold with the mass ratios
    computed by [mass_ratio_ion], the mass flows of H2O, Na+ and Cl- of the
    eNRTL state add up to the H2O plus TDS mass flow of the brine. *)
Theorem ion_link_total_mass (mw_comp : gmap string Q)
    (b : EvaporatorENRTL.NonidealBlock) (c_na c_cl : EqualityExpression) :
  EvaporatorENRTL.mass_ratio_ion mw_comp
  = Ok (EvaporatorENRTL.mass_ratio (EvaporatorENRTL.enrtl_state b)) ->
  EvaporatorENRTL.eq_enrtl_flow_mass_ion_comp b "Na+" = Ok c_na ->
  EvaporatorENRTL.eq_enrtl_flow_mass_ion_comp b "Cl-" = Ok c_cl ->
  holds c_na -> holds c_cl ->
  holds (EvaporatorENRTL.eq_enrtl_flow_mass_H2O b) ->
  flow_mass_phase_comp
    (EvaporatorENRTL.properties (EvaporatorENRTL.enrtl_state b))
    ("Liq", "H2O")%string
  + flow_mass_phase_comp
      (EvaporatorENRTL.properties (EvaporatorENRTL.enrtl_state b))
      ("Liq", "Na+")%string
  + flow_mass_phase_comp
      (EvaporatorENRTL.properties (EvaporatorENRTL.enrtl_state b))
      ("Liq", "Cl-")%string
  == flow_mass_phase_comp (properties_brine (EvaporatorENRTL.evaporator b))
       ("Liq", "H2O")%string
     + flow_mass_phase_comp (properties_brine (EvaporatorENRTL.evaporator b))
         ("Liq", "TDS")%string.
Proof.
  intros Hratio Ena Ecl Hna Hcl Hw.
  destruct (ion_flows_of_constraints mw_comp b c_na c_cl Hratio Ena Ecl
              Hna Hcl) as (w_na & w_cl & _ & _ & Hnz & Fna & Fcl).
  unfold holds in Hw. cbn [lhs rhs EvaporatorENRTL.eq_enrtl_flow_mass_H2O] in Hw.
  rewrite Fna, Fcl, Hw. field. exact Hnz.
Qed.

Lemma ion_link_total_mass_witness :
  flow_mass_phase_comp
    (EvaporatorENRTL.properties
       (EvaporatorENRTL.enrtl_state (linked_block 0.35 2)))
    ("Liq", "H2O")%string
  + flow_mass_phase_comp
      (EvaporatorENRTL.properties
         (EvaporatorENRTL.enrtl_state (linked_block 0.35 2)))
      ("Liq", "Na+")%string
  + flow_mass_phase_comp
      (EvaporatorENRTL.properties
         (EvaporatorENRTL.enrtl_state (linked_block 0.35 2)))
      ("Liq", "Cl-")%string
  == 2 + 0.35.
Proof.
  apply (ion_link_total_mass EvaporatorENRTL.mw_comp_configuration
           (linked_block 0.35 2) _ _ eq_refl eq_refl eq_refl);
    reflexivity.
Defined.

(** X4.  With the mass ratios computed by [mass_ratio_ion], the rule
    [eq_enrtl_flow_mass_ion_comp] yields a constraint exactly for the ions
    of [set_ions]; for any other component (TDS, H2O) the lookup of its mass
    ratio is a [KeyError]. *)
Theorem eq_enrtl_flow_mass_ion_comp_domain (mw_comp : gmap string Q)
    (b : EvaporatorENRTL.NonidealBlock) (j : string) :
  EvaporatorENRTL.mass_ratio_ion mw_comp
  = Ok (EvaporatorENRTL.mass_ratio (EvaporatorENRTL.enrtl_state b)) ->
  (is_Ok (EvaporatorENRTL.eq_enrtl_flow_mass_ion_comp b j)
   <-> j ∈ EvaporatorENRTL.set_ions)
  /\ (j ∉ EvaporatorENRTL.set_ions ->
      EvaporatorENRTL.eq_enrtl_flow_mass_ion_comp b j = Raise KeyError).
Proof.
  intros Hratio.
  apply mass_ratio_ion_Ok_inv in Hratio
    as (w_na & w_cl & total & _ & _ & _ & _ & Hr).
  unfold EvaporatorENRTL.eq_enrtl_flow_mass_ion_comp,
    EvaporatorENRTL.set_ions. rewrite Hr.
  destruct (decide (j = "Na+"%string)) as [->|Hna].
  { rewrite (getitem_Some _ _ _ (ratio_lookup_Na _ _)). cbn.
    split; [split; [intros _; left|intros _; exact I]|].
    intros Hn. exfalso. apply Hn. left. }
  destruct (decide (j = "Cl-"%string)) as [->|Hcl].
  { rewrite (getitem_Some _ _ _ (ratio_lookup_Cl _ _)). cbn.
    split; [split; [intros _; right; left|intros _; exact I]|].
    intros Hn. exfalso. apply Hn. right. left. }
  unfold getitem. rewrite (ratio_lookup_other _ _ j Hna Hcl). cbn.
  split; [|reflexivity]. split; [intros []|].
  intros Hin. apply elem_of_cons in Hin as [->|Hin]; [congruence|].
  apply elem_of_cons in Hin as [->|Hin]; [congruence|]. inversion Hin.
Qed.

Lemma eq_enrtl_flow_mass_ion_comp_domain_witness :
  EvaporatorENRTL.eq_enrtl_flow_mass_ion_comp (linked_block 0.35 2) "TDS"
  = Raise KeyError.
Proof.
  apply (eq_enrtl_flow_mass_ion_comp_domain
           EvaporatorENRTL.mw_comp_configuration (linked_block 0.35 2) "TDS"
           eq_refl).
  intros Hin. apply elem_of_cons in Hin as [Hin|Hin]; [discriminate|].
  apply elem_of_cons in Hin as [Hin|Hin]; [discriminate|]. inversion Hin.
Defined.

(** ** Equilibrium pressure and molal concentration *)

(** X5.  With a non-negative water mole fraction and saturation pressure
    and an activity coefficient of water of at most 1, the right-hand side
    of the nonideal equilibrium constraint is at most the one of the ideal
    constraint; if moreover the mole fraction is at most 1 and the nonideal
    constraint holds, the brine pressure is at most the saturation
    pressure. *)
Theorem nonideal_pressure_below_ideal (b : EvaporatorENRTL.NonidealBlock) :
  0 <= mole_frac_phase_comp (properties_brine (EvaporatorENRTL.evaporator b))
         ("Liq", "H2O")%string ->
  0 <= pressure_sat (properties_vapor (EvaporatorENRTL.evaporator b)) ->
  act_coeff_phase_comp
    (EvaporatorENRTL.properties (EvaporatorENRTL.enrtl_state b))
    ("Liq", "H2O")%string <= 1 ->
  rhs (EvaporatorENRTL._eq_nonideal_phase_equilibrium b)
  <= rhs (EvaporatorENRTL._eq_ideal_phase_equilibrium
            (EvaporatorENRTL.evaporator b))
  /\ (mole_frac_phase_comp (properties_brine (EvaporatorENRTL.evaporator b))
        ("Liq", "H2O")%string <= 1 ->
      holds (EvaporatorENRTL._eq_nonideal_phase_equilibrium b) ->
      pressure (properties_brine (EvaporatorENRTL.evaporator b))
      <= pressure_sat (properties_vapor (EvaporatorENRTL.evaporator b))).
Proof.
  intros Hx Hp Hg.
  cbn [rhs lhs EvaporatorENRTL._eq_nonideal_phase_equilibrium
       EvaporatorENRTL._eq_ideal_phase_equilibrium].
  unfold EvaporatorENRTL.act_coeff, holds.
  cbn [rhs lhs EvaporatorENRTL._eq_nonideal_phase_equilibrium].
  set (g := act_coeff_phase_comp _ _) in *.
  set (x := mole_frac_phase_comp _ _) in *.
  set (ps := pressure_sat _) in *.
  assert (Hxp : 0 <= x * ps) by (apply Qmult_le_0_compat; assumption).
  assert (H1 : 0 <= (1 - g) * (x * ps))
    by (apply Qmult_le_0_compat; [lra|exact Hxp]).
  split; [nra|].
  intros Hx1 Heq. rewrite Heq.
  assert (H2 : 0 <= (1 - x) * ps) by (apply Qmult_le_0_compat; lra).
  nra.
Qed.

Lemma nonideal_pressure_below_ideal_witness :
  rhs (EvaporatorENRTL._eq_nonideal_phase_equilibrium unit_activity_block)
  <= rhs (EvaporatorENRTL._eq_ideal_phase_equilibrium
            (EvaporatorENRTL.evaporator unit_activity_block)).
Proof.
  apply (nonideal_pressure_below_ideal unit_activity_block); discriminate.
Defined.

Section Molal.
Import EvaporatorENRTL.

Lemma molal_conc_solute_Ok (mw_TDS : Q) (ev : Evaporator) :
  ~ mw_TDS == 0 ->
  ~ flow_mass_phase_comp (properties_brine ev) ("Liq", "H2O")%string == 0 ->
  molal_conc_solute mw_TDS ev
  = Ok (flow_mass_phase_comp (properties_brine ev) ("Liq", "TDS")%string
        / mw_TDS
        / flow_mass_phase_comp (properties_brine ev) ("Liq", "H2O")%string).
Proof.
  intros Hm Hw. unfold molal_conc_solute.
  rewrite (pydiv_Ok _ _ Hm). cbn [mbind result_bind].
  rewrite (pydiv_Ok _ _ Hw). reflexivity.
Qed.

End Molal.

(** X6.  The molal concentration of the solute is intensive: whenever
    [molal_conc_solute] evaluates, it evaluates to an equal value after all
    brine mass flows are multiplied by a non-zero factor, and its value
    times the molecular weight of TDS times the water mass flow is the TDS
    mass flow. *)
Theorem molal_conc_solute_intensive (mw_TDS k : Q) (ev : Evaporator) (m : Q) :
  ~ k == 0 ->
  EvaporatorENRTL.molal_conc_solute mw_TDS ev = Ok m ->
  exists m' : Q,
    EvaporatorENRTL.molal_conc_solute mw_TDS (scale_flows k ev) = Ok m'
    /\ m' == m
    /\ m * mw_TDS
         * flow_mass_phase_comp (properties_brine ev) ("Liq", "H2O")%string
       == flow_mass_phase_comp (properties_brine ev) ("Liq", "TDS")%string.
Proof.
  intros Hk Hm.
  assert (Hdom : is_Ok (EvaporatorENRTL.molal_conc_solute mw_TDS ev))
    by (rewrite Hm; exact I).
  apply molal_conc_solute_domain in Hdom as [Hmw Hw].
  rewrite (molal_conc_solute_Ok _ _ Hmw Hw) in Hm. injection Hm as <-.
  eexists. split.
  - apply molal_conc_solute_Ok; [exact Hmw|].
    cbn [scale_flows properties_brine flow_mass_phase_comp].
    intros H0. apply Hw.
    destruct (Qmult_integral _ _ H0) as [Hk0|Hw0]; [contradiction|exact Hw0].
  - cbn [scale_flows properties_brine flow_mass_phase_comp].
    split; field; auto.
Qed.

Lemma molal_conc_solute_intensive_witness :
  exists m' : Q,
    EvaporatorENRTL.molal_conc_solute 0.0314
      (scale_flows 2 (EvaporatorENRTL.evaporator unit_activity_block)) = Ok m'
    /\ m' == 1 / 0.0314 / 1.
Proof.
  destruct (molal_conc_solute_intensive 0.0314 2
              (EvaporatorENRTL.evaporator unit_activity_block)
              (1 / 0.0314 / 1) ltac:(discriminate) eq_refl)
    as (m' & H1 & H2 & _).
  exists m'. split; assumption.
Defined.

(** ** Initial values of the eNRTL state block *)

Section Populate.
Import StateVars.


Lemma feed_mass_frac_comp_keys :
  odict_keys feed_mass_frac_comp = ["Na+"; "Cl-"; "H2O"]%string.
Proof. reflexivity. Qed.

Lemma populate_component_Na :
  populate_component "Na+"
  = and_then (set_flow_mol_phase_comp ("Liq", "Na+")%string
                (feed_flow_mass * 0.013768116 / 22.990e-3)) skip.
Proof. reflexivity. Qed.

Lemma populate_component_Cl :
  populate_component "Cl-"
  = and_then (set_flow_mol_phase_comp ("Liq", "Cl-")%string
                (feed_flow_mass * 0.021231884 / 35.453e-3)) skip.
Proof. reflexivity. Qed.

Lemma populate_component_H2O :
  populate_component "H2O"
  = and_then (set_flow_mol_phase_comp ("Liq", "H2O")%string
                (feed_flow_mass * (1 - (0 + 0.013768116 + 0.021231884))
                 / 18.015e-3))
      (idiv_flow_mol_phase_comp ("Liq", "H2O")%string 2).
Proof. reflexivity. Qed.


Lemma populate_other (base : string) (blk : t) :
  String.eqb base "FpcTP" = false ->
  populate_enrtl_state_vars base blk
  = (with_flow blk (flow_mol_phase_comp blk), Ok tt).
Proof.
  intros Hb. unfold populate_enrtl_state_vars. rewrite Hb. reflexivity.
Qed.

Lemma populate_FpcTP (blk : t) :
  populate_enrtl_state_vars "FpcTP" blk
  = let f := flow_mol_phase_comp blk in
    match f !! idx_Na with
    | None => (with_flow blk f, Raise KeyError)
    | Some _ =>
        match f !! idx_Cl with
        | None => (with_flow blk (<[idx_Na := flow_mol_Na]> f), Raise KeyError)
        | Some _ =>
            match f !! idx_H2O with
            | None =>
                (with_flow blk (<[idx_Cl := flow_mol_Cl]> (<[idx_Na := flow_mol_Na]> f)),
                 Raise KeyError)
            | Some _ =>
                (with_flow blk
                   (<[idx_H2O := flow_mol_H2O / 2]>
                      (<[idx_H2O := flow_mol_H2O]> (<[idx_Cl := flow_mol_Cl]> (<[idx_Na := flow_mol_Na]> f)))),
                 Ok tt)
            end
        end
    end.
Proof.
  unfold populate_enrtl_state_vars.
  change (String.eqb "FpcTP" "FpcTP") with true. cbv iota.
  rewrite feed_mass_frac_comp_keys. cbn [for_each].
  rewrite populate_component_Na, populate_component_Cl,
    populate_component_H2O.
  fold flow_mol_Na flow_mol_Cl flow_mol_H2O idx_Na idx_Cl idx_H2O.
  unfold and_then, set_temperature, set_pressure, skip, with_flow.
  cbn [flow_mol_phase_comp temperature pressure].
  unfold set_flow_mol_phase_comp at 1. cbn [flow_mol_phase_comp temperature pressure].
  destruct (flow_mol_phase_comp blk !! idx_Na) as [?|] eqn:ENa; [|reflexivity].
  unfold set_flow_mol_phase_comp at 1. cbn [flow_mol_phase_comp temperature pressure].
  rewrite (lookup_insert_ne (flow_mol_phase_comp blk) idx_Na idx_Cl) by discriminate.
  destruct (flow_mol_phase_comp blk !! idx_Cl) as [?|] eqn:ECl; [|reflexivity].
  unfold set_flow_mol_phase_comp at 1. cbn [flow_mol_phase_comp temperature pressure].
  rewrite !(lookup_insert_ne _ _ idx_H2O) by discriminate.
  destruct (flow_mol_phase_comp blk !! idx_H2O) as [?|] eqn:EH; [|reflexivity].
  unfold idiv_flow_mol_phase_comp. cbn [flow_mol_phase_comp temperature pressure].
  rewrite lookup_insert_eq.
  rewrite (pydiv_Ok flow_mol_H2O 2) by discriminate.
  unfold set_flow_mol_phase_comp. cbn [flow_mol_phase_comp temperature pressure].
  rewrite lookup_insert_eq. reflexivity.
Qed.


Ltac map_cases k :=
  rewrite !lookup_insert;
  repeat case_decide; subst; try reflexivity; try discriminate;
  try congruence.

Ltac vac := let H := fresh in intros H; exfalso; apply H; reflexivity.

(** X7.  [populate_enrtl_state_vars] always sets the temperature to 298.15
    and the pressure to 101325, never changes the index set of
    [flow_mol_phase_comp], and leaves every flow other than those of
    (Liq, Na+), (Liq, Cl-) and (Liq, H2O) as it was; for a base other than
    "FpcTP" it changes no flow and succeeds. *)
Theorem populate_enrtl_state_vars_frame (base : string) (blk : t) :
  let out := populate_enrtl_state_vars base blk in
  temperature out.1 = 298.15
  /\ pressure out.1 = 101325
  /\ dom (flow_mol_phase_comp out.1) = dom (flow_mol_phase_comp blk)
  /\ (forall idx, idx <> idx_Na -> idx <> idx_Cl -> idx <> idx_H2O ->
        flow_mol_phase_comp out.1 !! idx = flow_mol_phase_comp blk !! idx)
  /\ (base <> "FpcTP"%string ->
        flow_mol_phase_comp out.1 = flow_mol_phase_comp blk
        /\ out.2 = Ok tt).
Proof.
  destruct (String.eqb base "FpcTP") eqn:Hb.
  - apply String.eqb_eq in Hb. subst base. cbv zeta.
    rewrite populate_FpcTP. cbv zeta.
    destruct (flow_mol_phase_comp blk !! idx_Na) as [a|] eqn:ENa;
      [|cbn; split; [reflexivity|]; split; [reflexivity|];
        split; [reflexivity|]; split; [reflexivity|vac]].
    destruct (flow_mol_phase_comp blk !! idx_Cl) as [c|] eqn:ECl.
    2:{ cbn. split; [reflexivity|]. split; [reflexivity|]. split.
        - apply dom_insert_lookup_L. rewrite ENa. eauto.
        - split; [|vac].
          intros idx H1 _ _. apply lookup_insert_ne. congruence. }
    destruct (flow_mol_phase_comp blk !! idx_H2O) as [h|] eqn:EH.
    2:{ cbn. split; [reflexivity|]. split; [reflexivity|]. split.
        - rewrite !dom_insert_lookup_L; [reflexivity|rewrite ENa; eauto|].
          rewrite lookup_insert_ne by discriminate. rewrite ECl. eauto.
        - split; [|vac].
          intros idx H1 H2 _. rewrite !lookup_insert_ne by congruence.
          reflexivity. }
    cbn. split; [reflexivity|]. split; [reflexivity|]. split.
    + rewrite !dom_insert_lookup_L; [reflexivity|rewrite ENa; eauto| | |].
      * rewrite lookup_insert_ne by discriminate. rewrite ECl. eauto.
      * rewrite !lookup_insert_ne by discriminate. rewrite EH. eauto.
      * rewrite lookup_insert_eq. eauto.
    + split; [|vac].
      intros idx H1 H2 H3. rewrite !lookup_insert_ne by congruence.
      reflexivity.
  - cbv zeta. rewrite (populate_other base blk Hb). cbn.
    repeat split; reflexivity.
Qed.

(** X8.  For the base "FpcTP", [populate_enrtl_state_vars] succeeds exactly
    when (Liq, Na+), (Liq, Cl-) and (Liq, H2O) are indices of
    [flow_mol_phase_comp], and fails with [KeyError] otherwise; on success
    the three flows are the feed mole flows of Na+ and Cl- and half the feed
    mole flow of water. *)
Theorem populate_enrtl_state_vars_outcome (blk : t) :
  let out := populate_enrtl_state_vars "FpcTP" blk in
  (out.2 = Ok tt
   <-> is_Some (flow_mol_phase_comp blk !! idx_Na)
       /\ is_Some (flow_mol_phase_comp blk !! idx_Cl)
       /\ is_Some (flow_mol_phase_comp blk !! idx_H2O))
  /\ (out.2 = Ok tt \/ out.2 = Raise KeyError)
  /\ (out.2 = Ok tt ->
      flow_mol_phase_comp out.1 !! idx_Na = Some flow_mol_Na
      /\ flow_mol_phase_comp out.1 !! idx_Cl = Some flow_mol_Cl
      /\ flow_mol_phase_comp out.1 !! idx_H2O = Some (flow_mol_H2O / 2)).
Proof.
  cbv zeta. rewrite populate_FpcTP. cbv zeta.
  destruct (flow_mol_phase_comp blk !! idx_Na) as [a|] eqn:ENa.
  2:{ cbn. split; [|split; [right; reflexivity|discriminate]].
      split; [discriminate|]. intros ([? [=]] & _). }
  destruct (flow_mol_phase_comp blk !! idx_Cl) as [c|] eqn:ECl.
  2:{ cbn. split; [|split; [right; reflexivity|discriminate]].
      split; [discriminate|]. intros (_ & [? [=]] & _). }
  destruct (flow_mol_phase_comp blk !! idx_H2O) as [h|] eqn:EH.
  2:{ cbn. split; [|split; [right; reflexivity|discriminate]].
      split; [discriminate|]. intros (_ & _ & [? [=]]). }
  cbn. split; [split; eauto|]. split; [left; reflexivity|].
  intros _. split; [|split].
  - rewrite !lookup_insert_ne by discriminate. apply lookup_insert_eq.
  - rewrite !lookup_insert_ne by discriminate. apply lookup_insert_eq.
  - apply lookup_insert_eq.
Qed.

(** X9.  [populate_enrtl_state_vars] is idempotent: run again on the block
    it produced, it gives the same block and the same outcome; the water
    flow is not halved a second time. *)
Theorem populate_enrtl_state_vars_idempotent (base : string) (blk : t) :
  populate_enrtl_state_vars base (populate_enrtl_state_vars base blk).1
  = populate_enrtl_state_vars base blk.
Proof.
  destruct (String.eqb base "FpcTP") eqn:Hb.
  - apply String.eqb_eq in Hb. subst base.
    rewrite (populate_FpcTP blk). cbv zeta.
    destruct (flow_mol_phase_comp blk !! idx_Na) as [a|] eqn:ENa.
    + destruct (flow_mol_phase_comp blk !! idx_Cl) as [c|] eqn:ECl.
      * destruct (flow_mol_phase_comp blk !! idx_H2O) as [h|] eqn:EH.
        -- cbn [fst]. rewrite populate_FpcTP. cbn.
           rewrite !(lookup_insert_ne _ _ idx_Na) by discriminate.
           rewrite lookup_insert_eq.
           rewrite !(lookup_insert_ne _ idx_H2O idx_Cl) by discriminate.
           rewrite lookup_insert_eq. rewrite lookup_insert_eq.
           unfold with_flow. do 2 f_equal.
           apply map_eq. intros k. map_cases k.
        -- cbn [fst]. rewrite populate_FpcTP. cbn.
           rewrite (lookup_insert_ne _ idx_Cl idx_Na) by discriminate.
           rewrite lookup_insert_eq.
           rewrite lookup_insert_eq.
           rewrite !(lookup_insert_ne _ _ idx_H2O) by discriminate. rewrite EH.
           unfold with_flow. do 2 f_equal.
           apply map_eq. intros k. map_cases k.
      * cbn [fst]. rewrite populate_FpcTP. cbn.
        rewrite lookup_insert_eq.
        rewrite lookup_insert_ne by discriminate. rewrite ECl.
        rewrite insert_insert_eq. reflexivity.
    + cbn [fst]. rewrite populate_FpcTP. cbn. rewrite ENa. reflexivity.
  - rewrite !(populate_other _ _ Hb). reflexivity.
Qed.

Lemma populate_enrtl_state_vars_frame_witness :
  flow_mol_phase_comp
    (populate_enrtl_state_vars "FpcTP" example_state_vars).1
    !! ("Vap", "H2O")%string = Some 7.
Proof.
  etransitivity.
  - apply (populate_enrtl_state_vars_frame "FpcTP" example_state_vars);
      discriminate.
  - vm_compute. reflexivity.
Defined.

Lemma populate_enrtl_state_vars_outcome_witness :
  (populate_enrtl_state_vars "FpcTP" example_state_vars).2 = Ok tt.
Proof.
  apply (proj1 (populate_enrtl_state_vars_outcome example_state_vars)).
  repeat split; eexists; vm_compute; reflexivity.
Defined.

End Populate.

(** ** Water recovery and evaporator pressures of the three-effect flowsheet *)

Lemma pysum_pure_from {A} (f : A -> Q) (xs : list A) (a : Q) :
  exists v : Q,
    fold_left (fun acc x => s ← acc; t ← Ok (f x); Ok (s + t)) xs (Ok a)
    = Ok v
    /\ v == a + SingleElectrolyte.Qsum f xs.
Proof.
  revert a. induction xs as [|x xs IH]; intros a.
  - exists a. split; [reflexivity|].
    unfold SingleElectrolyte.Qsum. cbn [fold_right]. ring.
  - cbn [fold_left mbind result_bind].
    destruct (IH (a + f x)) as (v & Hv & Hq).
    exists v. split; [exact Hv|]. rewrite Hq.
    unfold SingleElectrolyte.Qsum. cbn [fold_right]. ring.
Qed.

Lemma pysum_pure {A} (f : A -> Q) (xs : list A) :
  exists v : Q,
    pysum (fun x => Ok (f x)) xs = Ok v /\ v == SingleElectrolyte.Qsum f xs.
Proof.
  destruct (pysum_pure_from f xs 0) as (v & Hv & Hq).
  exists v. split; [exact Hv|]. rewrite Hq. ring.
Qed.

(** X10.  [rule_water_recovery] always returns its constraint; the
    right-hand side of the constraint has a value exactly at the points where
    the feed water flow is not zero, and at a zero feed its evaluation is a
    division by zero, so the constraint cannot hold there.  At a nonzero feed
    the constraint holds exactly when the water recovery is the water
    produced by the condensers over the feed water, and for a positive feed
    the bounds (0, 1) of the water recovery then say that the produced water
    is between zero and the feed water. *)
Theorem rule_water_recovery_meaning (water_recovery feed : Q)
    (product : nat -> Q) (num_evaporators : nat) :
  let c :=
    Flowsheet.rule_water_recovery water_recovery feed product num_evaporators
  in
  let produced := SingleElectrolyte.Qsum product (RangeSet num_evaporators) in
  Flowsheet.value_lhs c = Ok water_recovery
  /\ (feed == 0 ->
      Flowsheet.value_rhs c = Raise ZeroDivisionError
      /\ ~ Flowsheet.holds_at c)
  /\ (~ feed == 0 ->
      (exists r : Q,
         Flowsheet.value_rhs c = Ok r /\ r == 1 - (feed - produced) / feed)
      /\ (Flowsheet.holds_at c <-> water_recovery == produced / feed)
      /\ (0 < feed -> Flowsheet.holds_at c ->
          (Flowsheet.water_recovery_bounds water_recovery
           <-> 0 <= produced /\ produced <= feed))).
Proof.
  intros c produced. subst c.
  unfold Flowsheet.holds_at, Flowsheet.rule_water_recovery.
  cbn [Flowsheet.value_lhs Flowsheet.value_rhs].
  destruct (pysum_pure product (RangeSet num_evaporators)) as (v & Hv & Hq).
  fold produced in Hq.
  rewrite Hv. cbn [mbind result_bind].
  split; [reflexivity|]. split.
  - intros H0. rewrite (pydiv_Raise _ _ H0). cbn [mbind result_bind].
    split; [reflexivity|].
    intros (l & r & _ & Hr & _). discriminate.
  - intros Hnz. rewrite (pydiv_Ok _ _ Hnz). cbn [mbind result_bind].
    assert (Hrhs : 1 - (feed - v) / feed == produced / feed)
      by (rewrite Hq; field; exact Hnz).
    assert (Hholds : (exists l r : Q,
                        Ok water_recovery = Ok l
                        /\ Ok (1 - (feed - v) / feed) = Ok r /\ l == r)
                     <-> water_recovery == produced / feed).
    { split.
      - intros (l & r & [= <-] & [= <-] & Hlr). rewrite <- Hrhs. exact Hlr.
      - intros Hwr. exists water_recovery, (1 - (feed - v) / feed).
        split; [reflexivity|]. split; [reflexivity|].
        rewrite Hrhs. exact Hwr. }
    split.
    { eexists. split; [reflexivity|]. rewrite Hq. reflexivity. }
    split; [exact Hholds|].
    intros Hpos Hc. apply Hholds in Hc.
    unfold Flowsheet.water_recovery_bounds. rewrite Hc.
    split.
    + intros [H0 H1]. split.
      * apply (Qmult_le_compat_r _ _ feed) in H0; [|lra].
        assert (E : produced / feed * feed == produced) by (field; exact Hnz).
        rewrite E in H0. lra.
      * apply (Qmult_le_compat_r _ _ feed) in H1; [|lra].
        assert (E : produced / feed * feed == produced) by (field; exact Hnz).
        rewrite E in H1. lra.
    + intros [H0 H1]. split.
      * apply Qle_shift_div_l; [exact Hpos|]. lra.
      * apply Qle_shift_div_r; [exact Hpos|]. lra.
Qed.

(** Three evaporators producing 0.5 kg/s of water each from 9.65 kg/s of
    feed water: the constraint holds at the water recovery 1.5 / 9.65, which
    is within its bounds; at a zero feed the right-hand side has no value. *)
Lemma rule_water_recovery_meaning_witness :
  Flowsheet.holds_at
    (Flowsheet.rule_water_recovery (1.5 / 9.65) 9.65 (fun _ => 0.5) 3)
  /\ Flowsheet.water_recovery_bounds (1.5 / 9.65)
  /\ Flowsheet.value_rhs
       (Flowsheet.rule_water_recovery 0.2 0 (fun _ => 0.5) 3)
     = Raise ZeroDivisionError.
Proof.
  destruct (rule_water_recovery_meaning (1.5 / 9.65) 9.65 (fun _ => 0.5) 3)
    as (_ & _ & Hnz).
  destruct (Hnz ltac:(discriminate)) as (_ & Hholds & Hbounds).
  assert (Hc : Flowsheet.holds_at
                 (Flowsheet.rule_water_recovery (1.5 / 9.65) 9.65
                    (fun _ => 0.5) 3))
    by (apply Hholds; vm_compute; reflexivity).
  split; [exact Hc|]. split.
  - apply (Hbounds eq_refl Hc). split; discriminate.
  - apply (rule_water_recovery_meaning 0.2 0 (fun _ => 0.5) 3). reflexivity.
Defined.

(** X11.  The constraints [eq_upper_bound_evaporators_pressure] over
    [set2_evaporators] make the brine pressure non-increasing along the
    train: every evaporator has a pressure at most the one of any earlier
    evaporator. *)
Theorem evaporator_pressures_nonincreasing (outlet_brine_pressure : nat -> Q)
    (num_evaporators : nat) :
  (forall e, e ∈ Flowsheet.set2_evaporators num_evaporators ->
             holds_le (Flowsheet.eq_upper_bound_evaporators_pressure
                         outlet_brine_pressure e)) ->
  forall i j : nat,
    (1 <= i)%nat -> (i <= j)%nat -> (j <= num_evaporators)%nat ->
    outlet_brine_pressure j <= outlet_brine_pressure i.
Proof.
  intros Hall i j Hi Hij Hj.
  induction Hij as [|j Hij IH].
  - apply Qle_refl.
  - apply Qle_trans with (outlet_brine_pressure j); [|apply IH; lia].
    assert (Hin : j ∈ Flowsheet.set2_evaporators num_evaporators).
    { unfold Flowsheet.set2_evaporators, RangeSet. apply elem_of_seq. lia. }
    specialize (Hall j Hin). unfold holds_le in Hall.
    cbn [lower upper Flowsheet.eq_upper_bound_evaporators_pressure] in Hall.
    replace (j + 1)%nat with (S j) in Hall by lia. exact Hall.
Qed.

Lemma evaporator_pressures_nonincreasing_witness :
  (fun e : nat => 30000 - inject_Z (Z.of_nat e)) 3%nat
  <= (fun e : nat => 30000 - inject_Z (Z.of_nat e)) 1%nat.
Proof.
  apply (evaporator_pressures_nonincreasing
           (fun e : nat => 30000 - inject_Z (Z.of_nat e)) 3); [|lia|lia|lia].
  intros e He. unfold holds_le.
  cbn [lower upper Flowsheet.eq_upper_bound_evaporators_pressure].
  unfold Qle. cbn. lia.
Defined.

(** ** Shape of the temperature correlations *)

(** X12.  [relative_permittivity_expr] gives AM = 78.54003 at the room
    temperature CM = 298.15 and decreases strictly with the temperature on
    the positive temperatures. *)
Theorem relative_permittivity_expr_reference_and_monotone :
  (exists eps : Q,
     MultiElectrolyte.relative_permittivity_expr 298.15 = Ok eps
     /\ eps == 78.54003)
  /\ (forall T1 T2 : Q,
        0 < T1 -> T1 < T2 ->
        exists eps1 eps2 : Q,
          MultiElectrolyte.relative_permittivity_expr T1 = Ok eps1
          /\ MultiElectrolyte.relative_permittivity_expr T2 = Ok eps2
          /\ eps2 < eps1).
Proof.
  split.
  - eexists. split; [reflexivity|]. reflexivity.
  - intros T1 T2 H1 H12.
    rewrite (relative_permittivity_expr_nonzero T1) by lra.
    rewrite (relative_permittivity_expr_nonzero T2) by lra.
    eexists _, _. split; [reflexivity|]. split; [reflexivity|].
    assert (Hinv : 1 / T2 < 1 / T1).
    { apply Qlt_shift_div_l; [lra|].
      assert (E : 1 / T2 * T1 == T1 / T2) by (field; lra).
      rewrite E. apply Qlt_shift_div_r; lra. }
    nra.
Qed.

Lemma relative_permittivity_expr_reference_and_monotone_witness :
  exists eps1 eps2 : Q,
    MultiElectrolyte.relative_permittivity_expr 298.15 = Ok eps1
    /\ MultiElectrolyte.relative_permittivity_expr 333.15 = Ok eps2
    /\ eps2 < eps1.
Proof.
  apply (proj2 relative_permittivity_expr_reference_and_monotone
           298.15 333.15); reflexivity.
Defined.

Lemma Qsquare_nonneg (u : Q) : 0 <= u * u.
Proof.
  destruct (Qlt_le_dec u 0) as [Hn|Hp].
  - assert (E : u * u == (- u) * (- u)) by ring. rewrite E.
    apply Qmult_le_0_compat; lra.
  - apply Qmult_le_0_compat; assumption.
Qed.

(** [**] on floats: its only error is the overflow of the result. *)
Lemma pypow_Raise_inv (x : Q) (n : positive) (e : error) :
  pypow x n = Raise e -> e = OverflowError.
Proof.
  unfold pypow. destruct (Qle_bool _ _); [|discriminate].
  intros [= <-]. reflexivity.
Qed.

Lemma pypow_Ok_inv (x : Q) (n : positive) (y : Q) :
  pypow x n = Ok y ->
  y = x ^ Zpos n /\ Qabs (x ^ Zpos n) < float_overflow.
Proof.
  unfold pypow. destruct (Qle_bool _ _) eqn:E; [discriminate|].
  intros [= <-]. split; [reflexivity|].
  apply Qnot_le_lt. intros H. apply Qle_bool_iff in H. congruence.
Qed.

Lemma pypow_Ok (x : Q) (n : positive) :
  Qabs (x ^ Zpos n) < float_overflow -> pypow x n = Ok (x ^ Zpos n).
Proof.
  intros H. unfold pypow. destruct (Qle_bool _ _) eqn:E; [|reflexivity].
  apply Qle_bool_iff in E. apply Qle_not_lt in E. contradiction.
Qed.

Lemma pypow_Raise (x : Q) (n : positive) :
  float_overflow <= Qabs (x ^ Zpos n) -> pypow x n = Raise OverflowError.
Proof.
  intros H. unfold pypow. apply Qle_bool_iff in H. rewrite H. reflexivity.
Qed.

Lemma Qabs_square (x : Q) : Qabs (x ^ 2) == x * x.
Proof.
  assert (E : x ^ 2 == x * x) by (simpl; ring).
  rewrite E. apply Qabs_pos, Qsquare_nonneg.
Qed.

Lemma Qsquare_le_of_abs (x A : Q) : Qabs x <= A -> x * x <= A * A.
Proof.
  intros H. apply Qabs_Qle_condition in H. destruct H as [H1 H2].
  assert (Hp : 0 <= (A - x) * (A + x)) by (apply Qmult_le_0_compat; lra).
  lra.
Qed.

Lemma Qsquare_ge_of_abs (x B : Q) : 0 <= B -> B <= Qabs x -> B * B <= x * x.
Proof.
  intros HB H.
  destruct (Qlt_le_dec x 0) as [Hn|Hp].
  - rewrite Qabs_neg in H by lra.
    assert (Hq : 0 <= (- x - B) * (- x + B)) by (apply Qmult_le_0_compat; lra).
    lra.
  - rewrite Qabs_pos in H by lra.
    assert (Hq : 0 <= (x - B) * (x + B)) by (apply Qmult_le_0_compat; lra).
    lra.
Qed.

Lemma pypow_square_Ok (x : Q) :
  Qabs x <= inject_Z (2 ^ 511) -> pypow x 2 = Ok (x ^ 2).
Proof.
  intros H. apply pypow_Ok. rewrite Qabs_square.
  apply Qle_lt_trans with (inject_Z (2 ^ 511) * inject_Z (2 ^ 511)).
  - apply Qsquare_le_of_abs, H.
  - vm_compute. reflexivity.
Qed.

Lemma pypow_square_Raise (x : Q) :
  inject_Z (2 ^ 512) <= Qabs x -> pypow x 2 = Raise OverflowError.
Proof.
  intros H. apply pypow_Raise. rewrite Qabs_square.
  apply Qle_trans with (inject_Z (2 ^ 512) * inject_Z (2 ^ 512)).
  - vm_compute. discriminate.
  - apply Qsquare_ge_of_abs; [vm_compute; discriminate|exact H].
Qed.

Lemma pypow_square_Ok_sym (x x' y : Q) :
  x' * x' == x * x -> pypow x 2 = Ok y -> pypow x' 2 = Ok (x' ^ 2).
Proof.
  intros E H. apply pypow_Ok_inv in H. destruct H as [_ H].
  apply pypow_Ok. rewrite Qabs_square in *. rewrite E. exact H.
Qed.

(** The division by the molecular weight of water never fails. *)
Lemma dens_mol_water_expr_of_square (T : Q) :
  MultiElectrolyte.dens_mol_water_expr T
  = (square ← pypow (T - 273.15) 2;
     Ok ((1 * 1000 - 4.8e-6 * 1000 * square) / 18.01528e-3)).
Proof.
  unfold MultiElectrolyte.dens_mol_water_expr.
  destruct (pypow (T - 273.15) 2) as [square|e]; reflexivity.
Qed.

(** X13.  [dens_mol_water_expr] evaluates whenever the temperature is within
    2^511 of 273.15; its only error is the [OverflowError] of the square,
    raised whenever the temperature is 2^512 or more away from 273.15.
    Where it evaluates, its value is at most the value at 273.15 (which is
    1000 / 18.01528e-3 and is reached only there), and the temperature
    mirrored about 273.15 evaluates to the same value. *)
Theorem dens_mol_water_expr_maximum (T : Q) :
  (Qabs (T - 273.15) <= inject_Z (2 ^ 511) ->
   is_Ok (MultiElectrolyte.dens_mol_water_expr T))
  /\ (inject_Z (2 ^ 512) <= Qabs (T - 273.15) ->
      MultiElectrolyte.dens_mol_water_expr T = Raise OverflowError)
  /\ (forall e : error,
        MultiElectrolyte.dens_mol_water_expr T = Raise e -> e = OverflowError)
  /\ (forall d : Q,
        MultiElectrolyte.dens_mol_water_expr T = Ok d ->
        exists d_max : Q,
          MultiElectrolyte.dens_mol_water_expr 273.15 = Ok d_max
          /\ d_max == 1000 / 18.01528e-3
          /\ d <= d_max
          /\ (d == d_max <-> T == 273.15)
          /\ exists d' : Q,
               MultiElectrolyte.dens_mol_water_expr (2 * 273.15 - T) = Ok d'
               /\ d' == d).
Proof.
  rewrite !dens_mol_water_expr_of_square.
  split; [|split; [|split]].
  - intros H. rewrite (pypow_square_Ok _ H). exact I.
  - intros H. rewrite (pypow_square_Raise _ H). reflexivity.
  - intros e. destruct (pypow (T - 273.15) 2) as [y|e'] eqn:E; [discriminate|].
    intros [= <-]. apply (pypow_Raise_inv _ _ _ E).
  - intros d. destruct (pypow (T - 273.15) 2) as [y|e'] eqn:E; [|discriminate].
    intros [= <-].
    pose proof (pypow_Ok_inv _ _ _ E) as [-> _].
    assert (E' : pypow (2 * 273.15 - T - 273.15) 2
                 = Ok ((2 * 273.15 - T - 273.15) ^ 2))
      by (apply (pypow_square_Ok_sym (T - 273.15) _ ((T - 273.15) ^ 2));
          [ring|exact E]).
    rewrite E'. cbn [mbind result_bind].
    change (18.01528e-3) with (1801528 # 100000000).
    change (4.8e-6) with (48 # 10000000).
    assert (Hsq : forall u : Q, u ^ 2 == u * u) by (intros u; simpl; ring).
    assert (Hd : forall u : Q,
               (1 * 1000 - (48 # 10000000) * 1000 * u ^ 2)
               / (1801528 # 100000000)
               == (1 * 1000 - (48 # 10000000) * 1000 * (u * u))
                  * (100000000 # 1801528)).
    { intros u. rewrite Hsq. field. }
    eexists. split; [reflexivity|].
    split; [rewrite Hsq; field|].
    split; [|split].
    + rewrite !Hd. pose proof (Qsquare_nonneg (T - 273.15)). lra.
    + rewrite !Hd. split.
      * intros E0. assert (E1 : (T - 273.15) * (T - 273.15) == 0) by lra.
        apply Qmult_integral in E1. lra.
      * intros ->. lra.
    + eexists. split; [reflexivity|]. rewrite !Hd. ring.
Qed.

(** At 298.15 K the density evaluates, below its value at 273.15 K and equal
    to its value at the mirrored temperature; at 2^513 K the square
    overflows. *)
Lemma dens_mol_water_expr_maximum_witness :
  is_Ok (MultiElectrolyte.dens_mol_water_expr 298.15)
  /\ MultiElectrolyte.dens_mol_water_expr (inject_Z (2 ^ 513))
     = Raise OverflowError
  /\ exists d d_max d' : Q,
       MultiElectrolyte.dens_mol_water_expr 298.15 = Ok d
       /\ MultiElectrolyte.dens_mol_water_expr 273.15 = Ok d_max
       /\ d <= d_max
       /\ MultiElectrolyte.dens_mol_water_expr (2 * 273.15 - 298.15) = Ok d'
       /\ d' == d.
Proof.
  split; [|split].
  - apply (dens_mol_water_expr_maximum 298.15). vm_compute. discriminate.
  - apply (dens_mol_water_expr_maximum (inject_Z (2 ^ 513))).
    vm_compute. discriminate.
  - destruct (proj2 (proj2 (proj2 (dens_mol_water_expr_maximum 298.15)))
                ((1 * 1000 - 4.8e-6 * 1000 * (298.15 - 273.15) ^ 2)
                 / 18.01528e-3))
      as (d_max & Hmax & _ & Hle & _ & d' & Hd' & Hsym).
    + vm_compute. reflexivity.
    + eexists _, d_max, d'.
      split; [vm_compute; reflexivity|]. split; [exact Hmax|].
      split; [exact Hle|]. split; [exact Hd'|exact Hsym].
Defined.

(** ** Property equations of the LiBr package *)

Section LiBrEquations.
Import LiBr.

Lemma Qsum_components (M : string -> Q) :
  SingleElectrolyte.Qsum M components == M "H2O"%string + M "TDS"%string.
Proof. unfold SingleElectrolyte.Qsum, components. cbn [fold_right]. ring. Qed.

End LiBrEquations.

(** X16.  The documented molality x / ((1 - x) * MW) of the LiBr package,
    with x the TDS mass fraction, evaluates to the same value as the
    notebook's [molal_conc_solute] on the same flows, the TDS mole flow per
    unit of water mass flow, whenever the water flow, the total flow and the
    molecular weight are not zero. *)
Theorem LiBr_molality_agrees_with_molal_conc_solute (M MW : string -> Q) :
  ~ M "H2O"%string == 0 ->
  ~ M "H2O"%string + M "TDS"%string == 0 ->
  ~ MW "TDS"%string == 0 ->
  exists m m' : Q,
    LiBr.molality_phase_comp M MW = Ok m
    /\ EvaporatorENRTL.molal_conc_solute (MW "TDS"%string) (brine_of_flows M)
       = Ok m'
    /\ m == m'
    /\ m == M "TDS"%string / MW "TDS"%string / M "H2O"%string.
Proof.
  intros Hw Ht Hmw.
  pose proof (Qsum_components M) as Hs.
  unfold LiBr.molality_phase_comp, LiBr.mass_frac_phase_comp.
  rewrite pydiv_Ok by (rewrite Hs; exact Ht).
  cbn [mbind result_bind].
  assert (Hx : 1 - M "TDS"%string / SingleElectrolyte.Qsum M LiBr.components
               == M "H2O"%string / (M "H2O"%string + M "TDS"%string)).
  { rewrite Hs. field. exact Ht. }
  assert (Hden : ~ (1 - M "TDS"%string
                        / SingleElectrolyte.Qsum M LiBr.components)
                   * MW "TDS"%string == 0).
  { rewrite Hx. intros H0. apply Qmult_integral in H0 as [H0|H0];
      [|contradiction].
    apply Hw.
    assert (E : M "H2O"%string
                == M "H2O"%string / (M "H2O"%string + M "TDS"%string)
                   * (M "H2O"%string + M "TDS"%string))
      by (field; exact Ht).
    rewrite E, H0. ring. }
  rewrite (pydiv_Ok _ _ Hden).
  unfold EvaporatorENRTL.molal_conc_solute.
  cbn [brine_of_flows properties_brine flow_mass_phase_comp snd].
  rewrite (pydiv_Ok _ _ Hmw). cbn [mbind result_bind].
  rewrite (pydiv_Ok _ _ Hw).
  eexists _, _. split; [reflexivity|]. split; [reflexivity|].
  assert (E : M "TDS"%string / SingleElectrolyte.Qsum M LiBr.components
              / ((1 - M "TDS"%string
                      / SingleElectrolyte.Qsum M LiBr.components)
                 * MW "TDS"%string)
              == M "TDS"%string / MW "TDS"%string / M "H2O"%string).
  { rewrite Hs. field. repeat split; assumption. }
  split; exact E.
Qed.

Lemma LiBr_molality_agrees_with_molal_conc_solute_witness :
  exists m : Q,
    LiBr.molality_phase_comp
      LiBr_flows
      (fun _ => 0.08685) = Ok m
    /\ m == 0.55 / 0.08685 / 0.45.
Proof.
  destruct (LiBr_molality_agrees_with_molal_conc_solute
              LiBr_flows
              (fun _ => 0.08685)
              ltac:(discriminate) ltac:(discriminate) ltac:(discriminate))
    as (m & m' & H1 & _ & _ & H4).
  exists m. split; assumption.
Defined.

(** X17.  For a non-zero total mass flow and density, the documented mass
    fractions of H2O and TDS sum to 1, the mass concentrations sum to the
    density, and each mass concentration times the volumetric flow is the
    component mass flow. *)
Theorem LiBr_mass_fractions_and_concentrations (M : string -> Q) (rho : Q) :
  ~ M "H2O"%string + M "TDS"%string == 0 -> ~ rho == 0 ->
  exists X_w X_s C_w C_s Qv : Q,
    LiBr.mass_frac_phase_comp M "H2O" = Ok X_w
    /\ LiBr.mass_frac_phase_comp M "TDS" = Ok X_s
    /\ LiBr.conc_mass_phase_comp M rho "H2O" = Ok C_w
    /\ LiBr.conc_mass_phase_comp M rho "TDS" = Ok C_s
    /\ LiBr.flow_vol_phase M rho = Ok Qv
    /\ X_w + X_s == 1
    /\ C_w + C_s == rho
    /\ C_w * Qv == M "H2O"%string
    /\ C_s * Qv == M "TDS"%string.
Proof.
  intros Ht Hrho.
  pose proof (Qsum_components M) as Hs.
  assert (Ht' : ~ SingleElectrolyte.Qsum M LiBr.components == 0)
    by (rewrite Hs; exact Ht).
  unfold LiBr.conc_mass_phase_comp, LiBr.flow_vol_phase,
    LiBr.mass_frac_phase_comp.
  rewrite !(pydiv_Ok _ _ Ht'), (pydiv_Ok _ _ Hrho).
  cbn [mbind result_bind].
  eexists _, _, _, _, _.
  repeat (split; [reflexivity|]).
  rewrite Hs. repeat split; field; auto.
Qed.

Lemma LiBr_mass_fractions_and_concentrations_witness :
  exists X_w X_s : Q,
    LiBr.mass_frac_phase_comp
      LiBr_flows "H2O" = Ok X_w
    /\ LiBr.mass_frac_phase_comp
         LiBr_flows "TDS" = Ok X_s
    /\ X_w + X_s == 1.
Proof.
  destruct (LiBr_mass_fractions_and_concentrations
              LiBr_flows 1500
              ltac:(discriminate) ltac:(discriminate))
    as (X_w & X_s & _ & _ & _ & H1 & H2 & _ & _ & _ & H6 & _).
  exists X_w, X_s. repeat split; assumption.
Defined.
